(** * OpenClaw -> Nexus memory migration: a shallow embedding

    The development follows [scripts/openclaw_migrate.py].  Python values are
    an inductive type, the three passes are programs in a small
    trace-and-exception monad (every console line, directory creation, file
    opened for reading and JSON document dumped is recorded in order), and
    the destination tree is a finite map from paths to dumped documents on
    which a trace is replayed.

    Two library functions are parameters of the development: the parser
    behind [json.loads] / [json.load], and [repr] on floats, lists and
    dicts.

    The script section takes the database as the list of its rows, with
    TEXT, INTEGER, REAL and NULL cells, and every file it opens for writing
    as opened.  The chunk pass is embedded a second time with what that
    leaves out: BLOB cells, a database whose queries raise, and an
    [open(..., 'w')] that raises, the outcome of an open being a parameter.
    The two embeddings agree where the first applies. *)

From Stdlib Require Import ZArith String Ascii List Floats.PrimFloat.
From stdpp Require Import base option list gmap strings pretty.

Set Warnings "-clear-no-such-hyp".

Open Scope string_scope.
Open Scope list_scope.

(** ** Python values *)

(** The values the script handles: what [json.loads] returns and what the
    sqlite3 cursor yields for NULL, INTEGER, REAL and TEXT cells.  A dict is
    an association list in insertion order; all keys here are strings, and a
    lookup takes the first binding. *)
#[warnings="-register-all"]
Inductive pyval : Type :=
| PNone
| PBool (b : bool)
| PInt (n : Z)
| PFloat (x : float)
| PStr (s : string)
| PList (items : list pyval)
| PDict (entries : list (string * pyval)).

Inductive exn : Type :=
| TypeError
| AttributeError
| KeyError
| JSONDecodeError.

Inductive result (A : Type) : Type :=
| Ok (a : A)
| Raise (e : exn).
Arguments Ok {A} a.
Arguments Raise {A} e.

Definition is_ok {A} (r : result A) : bool :=
  match r with Ok _ => true | Raise _ => false end.

(** [bool(v)]: Python's truth value. *)
Definition truthy (v : pyval) : bool :=
  match v with
  | PNone => false
  | PBool b => b
  | PInt n => negb (n =? 0)%Z
  | PFloat x => negb (PrimFloat.eqb x PrimFloat.zero)
  | PStr s => negb (String.eqb s "")
  | PList items => match items with [] => false | _ :: _ => true end
  | PDict entries => match entries with [] => false | _ :: _ => true end
  end.

(** [v == s] for a string literal [s]. *)
Definition eq_str (v : pyval) (s : string) : bool :=
  match v with
  | PStr t => String.eqb t s
  | _ => false
  end.

Fixpoint assoc_get (k : string) (entries : list (string * pyval)) : option pyval :=
  match entries with
  | [] => None
  | (k', v) :: rest => if String.eqb k k' then Some v else assoc_get k rest
  end.

(** [needle in hay] on two strings: substring search. *)
Fixpoint str_contains (needle hay : string) : bool :=
  String.prefix needle hay ||
  match hay with
  | EmptyString => false
  | String _ rest => str_contains needle rest
  end.

Definition str_ends_with (suffix s : string) : bool :=
  (String.length suffix <=? String.length s)%nat &&
  String.eqb
    (String.substring (String.length s - String.length suffix)
                      (String.length suffix) s)
    suffix.

Fixpoint str_rfind (c : ascii) (s : string) : option nat :=
  match s with
  | EmptyString => None
  | String a rest =>
      match str_rfind c rest with
      | Some i => Some (S i)
      | None => if Ascii.eqb a c then Some 0%nat else None
      end
  end.

Fixpoint str_repeat (s : string) (n : nat) : string :=
  match n with
  | O => ""
  | S n' => s +:+ str_repeat s n'
  end.

Definition nl : string := String "010"%char EmptyString.

(** [d.get(k, dflt)] on the entries of a dict. *)
Definition dict_get (entries : list (string * pyval)) (k : string) (dflt : pyval) : pyval :=
  match assoc_get k entries with
  | Some x => x
  | None => dflt
  end.

(** [v.get(k)] / [v.get(k, dflt)]: only a dict has the method. *)
Definition py_get (v : pyval) (k : string) (dflt : pyval) : result pyval :=
  match v with
  | PDict entries => Ok (dict_get entries k dflt)
  | _ => Raise AttributeError
  end.

(** [k in v] for a string literal [k]: key membership on a dict, substring
    search on a string, element membership on a list, [TypeError] on the
    values that are not iterable. *)
Definition py_in (k : string) (v : pyval) : result bool :=
  match v with
  | PDict entries =>
      Ok (match assoc_get k entries with Some _ => true | None => false end)
  | PStr s => Ok (str_contains k s)
  | PList items => Ok (existsb (fun x => eq_str x k) items)
  | PNone | PBool _ | PInt _ | PFloat _ => Raise TypeError
  end.

(** [v[k]]: the subscript of a dict. *)
Definition py_getitem (v : pyval) (k : string) : result pyval :=
  match v with
  | PDict entries =>
      match assoc_get k entries with
      | Some x => Ok x
      | None => Raise KeyError
      end
  | _ => Raise TypeError
  end.

(** [sep.join(items)]: every item has to be a [str]. *)
Fixpoint str_items (items : list pyval) : result (list string) :=
  match items with
  | [] => Ok []
  | PStr s :: rest =>
      match str_items rest with
      | Ok l => Ok (s :: l)
      | Raise e => Raise e
      end
  | _ :: _ => Raise TypeError
  end.

Definition py_join (sep : string) (items : list pyval) : result string :=
  match str_items items with
  | Ok l => Ok (String.concat sep l)
  | Raise e => Raise e
  end.

(** [Path.stem]: the name up to its last dot, unless that dot is the first
    or the last character. *)
Definition stem (name : string) : string :=
  match str_rfind "."%char name with
  | Some i =>
      if (0 <? i)%nat && (i <? String.length name - 1)%nat
      then String.substring 0 i name
      else name
  | None => name
  end.

(** ** Effects *)

(** What a pass does to the outside world, in order.  Paths of [OpenRead]
    are relative to [~/.openclaw], paths of [Makedirs] and [JsonDump] to
    [~/.config/nexus].  [JsonDump p doc] stands for
    [with open(p, 'w') as f: json.dump(doc, f, indent=2)]: the file holds
    the serialisation of [doc], a function of [doc] alone.  Here the open
    and the dump always return; [migrate_code_chunks_db] below is the chunk
    pass with the opens and dumps that raise. *)
Inductive action : Type :=
| Stdout (line : string)
| Makedirs (dir : string)
| OpenRead (path : string)
| JsonDump (path : string) (doc : pyval).

(** A computation performs actions and then returns or raises; the actions
    performed before an exception stay performed. *)
Definition io (A : Type) : Type := (list action * result A)%type.

Global Instance io_ret : MRet io := fun A a => ([], Ok a).

Global Instance io_bind : MBind io := fun A B f m =>
  match m.2 with
  | Ok a => (m.1 ++ (f a).1, (f a).2)
  | Raise e => (m.1, Raise e)
  end.

Definition perform (a : action) : io unit := ([a], Ok tt).
Definition lift {A} (r : result A) : io A := ([], r).

Definition print (line : string) : io unit := perform (Stdout line).
Definition mkdir (dir : string) : io unit := perform (Makedirs dir).
Definition open_read (path : string) : io unit := perform (OpenRead path).
Definition json_dump (path : string) (doc : pyval) : io unit :=
  perform (JsonDump path doc).

(** [for x in l: s = body(s, x)], with the loop-carried variables as [s]. *)
Fixpoint for_each {A S} (body : S -> A -> io S) (l : list A) (s : S) : io S :=
  match l with
  | [] => mret s
  | x :: rest => s' ← body s x; for_each body rest s'
  end.

Fixpoint enumerate_from {A} (start : nat) (l : list A) : list (nat * A) :=
  match l with
  | [] => []
  | x :: rest => (start, x) :: enumerate_from (S start) rest
  end.

Definition enumerate {A} (l : list A) : list (nat * A) := enumerate_from 0 l.

(** [a / b] on paths. *)
Definition path_join (a b : string) : string := a +:+ "/" +:+ b.

(** The exit status of the interpreter: 0 when the script runs to its end,
    1 when an exception reaches the top level. *)
Definition exit_status {A} (m : io A) : Z :=
  match m.2 with
  | Ok _ => 0
  | Raise _ => 1
  end.

(** ** The sources *)

(** A row of [SELECT id, path, source, start_line, end_line, hash, model,
    text, embedding, updated_at FROM chunks]. *)
Record chunk_row : Type := {
  chunk_id : pyval;
  path : pyval;
  source : pyval;
  start_line : pyval;
  end_line : pyval;
  hash_val : pyval;
  model : pyval;
  text : pyval;
  embedding : pyval;
  updated_at : pyval
}.

(** What the script finds under [~/.openclaw], and the clock.
    - [database]: [None] when [memory/main.sqlite] does not exist, otherwise
      the rows of the [chunks] table in the order the [ORDER BY path,
      start_line] query returns them (a database whose queries raise, or
      with BLOB cells, is a [chunk_db] below);
    - [sessions_dir]: [None] when [agents/main/sessions] does not exist,
      otherwise its files in the order the directory is listed, each with
      its name and its lines as the file iterator yields them;
    - [config_file]: [None] when [openclaw.json] does not exist, otherwise
      its text;
    - [utcnow]: [datetime.utcnow().isoformat()] at the time of the call;
    - [home]: [Path.home()] as text. *)
Record sources : Type := {
  home : string;
  database : option (list chunk_row);
  sessions_dir : option (list (string * list string));
  config_file : option string;
  utcnow : string
}.

(** ** The destination tree *)

(** [~/.config/nexus]: the directories that exist and, for every file, the
    document last dumped into it. *)
Record nexus_tree : Type := {
  tree_dirs : gset string;
  tree_files : gmap string pyval
}.

Definition apply_action (t : nexus_tree) (a : action) : nexus_tree :=
  match a with
  | Makedirs d => {| tree_dirs := {[ d ]} ∪ tree_dirs t; tree_files := tree_files t |}
  | JsonDump p doc => {| tree_dirs := tree_dirs t; tree_files := <[ p := doc ]> (tree_files t) |}
  | Stdout _ | OpenRead _ => t
  end.

(** The tree after the actions of a trace, oldest first. *)
Definition replay (t : nexus_tree) (trace : list action) : nexus_tree :=
  foldl apply_action t trace.

(** *** Projections of a trace *)

Fixpoint dumps (trace : list action) : list (string * pyval) :=
  match trace with
  | [] => []
  | JsonDump p doc :: rest => (p, doc) :: dumps rest
  | _ :: rest => dumps rest
  end.

Fixpoint reads (trace : list action) : list string :=
  match trace with
  | [] => []
  | OpenRead p :: rest => p :: reads rest
  | _ :: rest => reads rest
  end.

Fixpoint made_dirs (trace : list action) : list string :=
  match trace with
  | [] => []
  | Makedirs d :: rest => d :: made_dirs rest
  | _ :: rest => made_dirs rest
  end.

(** The document the latest dump into [p] wrote, if any. *)
Fixpoint last_write (p : string) (ds : list (string * pyval)) : option pyval :=
  match ds with
  | [] => None
  | (q, doc) :: rest =>
      match last_write p rest with
      | Some d => Some d
      | None => if String.eqb q p then Some doc else None
      end
  end.

Definition set_clock (now : string) (src : sources) : sources :=
  {| home := home src;
     database := database src;
     sessions_dir := sessions_dir src;
     config_file := config_file src;
     utcnow := now |}.

(** ** The chunk database as sqlite3 returns it *)

(** A cell of a row: the five storage classes, as the sqlite3 module hands
    them to Python ([None], [int], [float], [str], [bytes]). *)
Inductive sql_value : Type :=
| SqlNull
| SqlInteger (n : Z)
| SqlReal (x : float)
| SqlText (s : string)
| SqlBlob (b : string).

Record db_row : Type := {
  c_id : sql_value;
  c_path : sql_value;
  c_source : sql_value;
  c_start_line : sql_value;
  c_end_line : sql_value;
  c_hash : sql_value;
  c_model : sql_value;
  c_text : sql_value;
  c_embedding : sql_value;
  c_updated_at : sql_value
}.

(** What lines 51-70 find at [memory/main.sqlite].
    - [DbMissing]: the path does not exist;
    - [DbFails None]: the connection or the [COUNT] query raises (the file
      is not a database, or it has no [chunks] table);
    - [DbFails (Some n)]: the count is [n], and the [SELECT] of the ten
      columns or its [fetchall] raises (a column is missing, a TEXT cell
      does not decode);
    - [DbRows rows]: the rows, in the order of the query. *)
Inductive chunk_db : Type :=
| DbMissing
| DbFails (counted : option nat)
| DbRows (rows : list db_row).

(** The exceptions that end the chunk pass: from sqlite3, from [open], and
    the [TypeError] of [json.dump] on a value it cannot serialise. *)
Inductive chunk_failure : Type :=
| DatabaseError
| OpenError
| DumpError.

Inductive chunk_result : Type :=
| Returned (migrated : nat)
| Aborted (e : chunk_failure).

(** What the chunk pass does, in order.  The name of [ChunkOpen] and
    [ChunkDump] is the last operand of
    [nexus_path / "memory" / "vector" / name], which the path library and
    the file system resolve against the vector directory: a name without
    "/" is an entry of that directory, a name with "/" or ".." can lead
    elsewhere, an absolute name replaces the directory.
    [ChunkOpen name]: [open] returned, the file exists and is empty.
    [ChunkDump name doc]: [json.dump] wrote [doc] into it. *)
Inductive chunk_event : Type :=
| ChunkConnect
| ChunkPrint (line : string)
| ChunkOpen (name : string)
| ChunkDump (name : string) (doc : pyval).

Fixpoint chunk_opens (events : list chunk_event) : list string :=
  match events with
  | [] => []
  | ChunkOpen name :: rest => name :: chunk_opens rest
  | _ :: rest => chunk_opens rest
  end.

Fixpoint chunk_dumps (events : list chunk_event) : list (string * pyval) :=
  match events with
  | [] => []
  | ChunkDump name doc :: rest => (name, doc) :: chunk_dumps rest
  | _ :: rest => chunk_dumps rest
  end.

(** ** Sample instances of the library parameters *)

(** JSON text written with apostrophes in place of double quotes. *)
Fixpoint js (s : string) : string :=
  match s with
  | EmptyString => EmptyString
  | String c rest => String (if Ascii.eqb c "'"%char then "034"%char else c) (js rest)
  end.

Definition text_part (s : string) : pyval :=
  PDict [("type", PStr "text"); ("text", PStr s)].

Definition message_of (inner : pyval) : pyval :=
  PDict [("type", PStr "message"); ("message", inner)].

(** Sample lines of a session log. *)
Definition line_a_b : string :=
  js "{'type':'message','message':{'role':'user','content':[{'type':'text','text':'a'},{'type':'other'},{'type':'text','text':'b'}]}}".
Definition line_string_message : string :=
  js "{'type':'message','message':'role content'}".
Definition line_null_text : string :=
  js "{'type':'message','message':{'role':'user','content':[{'type':'text','text':null}]}}".
Definition line_inner_timestamp : string :=
  js "{'type':'message','message':{'role':'user','content':'hi','timestamp':'2026-01-01T00:00:00Z'}}".
Definition line_ping : string := js "{'type':'ping'}".

(** A log of four lines: a message, a line that is not JSON, an object that
    is not a message, and a message again. *)
Definition sample_lines : list string :=
  [line_a_b; "not json"; line_ping; line_a_b].

(** A finite excerpt of [json.loads]: each text with the value the json
    library returns for it.  The texts outside the excerpt are not needed
    and read as unparseable. *)
Definition sample_json : list (string * pyval) := [
  ("1", PInt 1);
  ("[]", PList []);
  ("[1]", PList [PInt 1]);
  ("{}", PDict []);
  (line_a_b,
   message_of (PDict [("role", PStr "user");
                      ("content", PList [text_part "a"; PDict [("type", PStr "other")]; text_part "b"])]));
  (line_string_message,
   message_of (PStr "role content"));
  (line_null_text,
   message_of (PDict [("role", PStr "user");
                      ("content", PList [PDict [("type", PStr "text"); ("text", PNone)]])]));
  (line_inner_timestamp,
   message_of (PDict [("role", PStr "user"); ("content", PStr "hi");
                      ("timestamp", PStr "2026-01-01T00:00:00Z")]));
  (line_ping, PDict [("type", PStr "ping")])
].

Definition sample_loads (s : string) : option pyval := assoc_get s sample_json.

(** A stand-in for [repr]; the examples stringify no float, list or dict
    other than the two empty ones. *)
Definition sample_repr (v : pyval) : string :=
  match v with
  | PList [] => "[]"
  | PDict [] => "{}"
  | _ => "..."
  end.

Definition sample_row (id : string) (cell : pyval) : chunk_row :=
  {| chunk_id := PStr id;
     path := PStr "src/app.py";
     source := PStr "memory";
     start_line := PInt 10;
     end_line := PInt 42;
     hash_val := PStr "9f2c";
     model := PStr "text-embedding-3-small";
     text := PStr "def app(): pass";
     embedding := cell;
     updated_at := PInt 1700000000 |}.

Definition sample_sources (rows : option (list chunk_row))
    (sessions : option (list (string * list string)))
    (config : option string) : sources :=
  {| home := "/home/user";
     database := rows;
     sessions_dir := sessions;
     config_file := config;
     utcnow := "2026-01-01T00:00:00" |}.

(** A content list: two text parts, a part with no text field, and parts
    that are not of type "text". *)
Definition sample_parts : list pyval := [
  text_part "a";
  PInt 7;
  PDict [("type", PStr "other"); ("text", PStr "x")];
  text_part "b";
  PDict [("type", PStr "text")]
].

Definition sample_rows : list chunk_row := [
  sample_row "c1" (PStr "[1]");
  sample_row "c2" (PStr "[]");
  sample_row "c3" PNone;
  sample_row "c4" (PStr "not json");
  sample_row "c5" (PStr "1")
].

Definition sample_listing : list (string * list string) := [
  ("s1.jsonl", sample_lines);
  ("s2.deleted.jsonl", [line_a_b]);
  ("notes.txt", ["hello"])
].

(** What the claim C1 calls a non-empty sequence: a list or a string with
    at least one element. *)
Definition nonempty_sequence (v : pyval) : bool :=
  match v with
  | PList (_ :: _) => true
  | PStr s => negb (String.eqb s "")
  | _ => false
  end.

(** A row of the database with the given identifier and embedding cell. *)
Definition sample_db_row (id : string) (cell : sql_value) : db_row :=
  {| c_id := SqlText id;
     c_path := SqlText "src/app.py";
     c_source := SqlText "memory";
     c_start_line := SqlInteger 10;
     c_end_line := SqlInteger 42;
     c_hash := SqlText "9f2c";
     c_model := SqlText "text-embedding-3-small";
     c_text := SqlText "def app(): pass";
     c_embedding := cell;
     c_updated_at := SqlInteger 1700000000 |}.

(** The document the pass writes for [sample_db_row id cell] when the cell
    parses to [parsed]. *)
Definition sample_entry (id : string) (parsed : pyval) : pyval :=
  PDict [
    ("id", PStr id);
    ("content", PStr "def app(): pass");
    ("metadata", PDict [
      ("source_file", PStr "src/app.py");
      ("start_line", PInt 10);
      ("end_line", PInt 42);
      ("hash", PStr "9f2c");
      ("model", PStr "text-embedding-3-small");
      ("source", PStr "memory");
      ("migrated_from", PStr "openclaw");
      ("original_timestamp", PInt 1700000000)
    ]);
    ("embedding", parsed);
    ("timestamp", PInt 1700000000)
  ].

(** A row with an embedding whose path cell is a BLOB. *)
Definition sample_blob_path_row : db_row :=
  {| c_id := SqlText "c7";
     c_path := SqlBlob "src/app.py";
     c_source := SqlText "memory";
     c_start_line := SqlInteger 10;
     c_end_line := SqlInteger 42;
     c_hash := SqlText "9f2c";
     c_model := SqlText "text-embedding-3-small";
     c_text := SqlText "def app(): pass";
     c_embedding := SqlText "[1]";
     c_updated_at := SqlInteger 1700000000 |}.

(** Six rows: a list, an empty list, NULL, a text that is not JSON, a
    number, and a list stored as a BLOB. *)
Definition sample_db_rows : list db_row := [
  sample_db_row "c1" (SqlText "[1]");
  sample_db_row "c2" (SqlText "[]");
  sample_db_row "c3" SqlNull;
  sample_db_row "c4" (SqlText "not json");
  sample_db_row "c5" (SqlText "1");
  sample_db_row "c6" (SqlBlob "[1]")
].

(** [json.loads] on the bytes of the samples, which are ASCII: the bytes
    read as text and parsed. *)
Definition sample_loads_bytes (b : string) : option pyval := sample_loads b.

(** [repr] of a bytes object, for printable ASCII bytes without quotes and
    backslashes. *)
Definition sample_bytes_repr (b : string) : string := "b'" +:+ b +:+ "'".

(** A destination tree in which the vector directory has no subdirectory:
    a name with a separator cannot be opened, a name without one can. *)
Definition flat_vector_dir (name : string) : bool := negb (str_contains "/" name).

Definition empty_tree : nexus_tree := {| tree_dirs := ∅; tree_files := ∅ |}.

Section Migration.

(** The parser of the json library: [Some v] when the text is a JSON
    document of value [v], [None] when parsing it raises. *)
Variable loads : string -> option pyval.

(** [repr] of a float, a list or a dict. *)
Variable py_repr : pyval -> string.

(** [json.loads(v)]: a text is parsed, any other value of the model is a
    [TypeError]. *)
Definition json_loads (v : pyval) : result pyval :=
  match v with
  | PStr s =>
      match loads s with
      | Some x => Ok x
      | None => Raise JSONDecodeError
      end
  | _ => Raise TypeError
  end.

(** [str(v)], which is also how an f-string formats [v]. *)
Definition py_str (v : pyval) : string :=
  match v with
  | PStr s => s
  | PNone => "None"
  | PBool true => "True"
  | PBool false => "False"
  | PInt n => pretty n
  | PFloat _ | PList _ | PDict _ => py_repr v
  end.

Definition nexus_path (home_dir : string) : string :=
  path_join (path_join home_dir ".config") "nexus".

(** *** Step 1: code chunks *)

Definition db_path : string := path_join "memory" "main.sqlite".
Definition vector_dir : string := path_join "memory" "vector".
Definition events_dir : string := path_join "memory" "events".
Definition graph_dir : string := path_join "memory" "graph".

(** Lines 73-76: the embedding cell parsed, with [[]] for a falsy cell and
    for anything [json.loads] raises on. *)
Definition embedding_list (row : chunk_row) : pyval :=
  match (if truthy (embedding row) then json_loads (embedding row)
         else Ok (PList [])) with
  | Ok v => v
  | Raise _ => PList []
  end.

(** The test of line 78, negated: the row goes on to be written. *)
Definition has_embedding (row : chunk_row) : bool :=
  truthy (embedding_list row).

Definition chunk_entry (row : chunk_row) : pyval :=
  PDict [
    ("id", chunk_id row);
    ("content", text row);
    ("metadata", PDict [
      ("source_file", path row);
      ("start_line", start_line row);
      ("end_line", end_line row);
      ("hash", hash_val row);
      ("model", model row);
      ("source", source row);
      ("migrated_from", PStr "openclaw");
      ("original_timestamp", updated_at row)
    ]);
    ("embedding", embedding_list row);
    ("timestamp", updated_at row)
  ].

Definition chunk_file (row : chunk_row) : string :=
  path_join vector_dir (py_str (chunk_id row) +:+ ".json").

(** The body of the loop over the rows; [migrated] is the counter. *)
Definition migrate_chunk (migrated : nat) (row : chunk_row) : io nat :=
  if negb (has_embedding row) then mret migrated
  else
    json_dump (chunk_file row) (chunk_entry row);;
    mret (S migrated).

Definition migrate_code_chunks (src : sources) : io nat :=
  match database src with
  | None =>
      print "   ⚠️  No OpenClaw database found";;
      mret 0%nat
  | Some rows =>
      open_read db_path;;
      print ("   Found " +:+ pretty (length rows) +:+ " code chunks");;
      for_each migrate_chunk rows 0%nat
  end.

(** *** Step 2: conversations *)

Definition sessions_path : string :=
  path_join (path_join "agents" "main") "sessions".

(** [sessions_path.glob("*.jsonl")] keeps the names that end in [.jsonl];
    the comprehension drops those containing [.deleted.]. *)
Definition active_session (name : string) : bool :=
  str_ends_with ".jsonl" name && negb (str_contains ".deleted." name).

Definition is_text_part (part : pyval) : bool :=
  match part with
  | PDict entries => eq_str (dict_get entries "type" PNone) "text"
  | _ => false
  end.

Definition part_text (part : pyval) : pyval :=
  match part with
  | PDict entries => dict_get entries "text" (PStr "")
  | _ => PStr ""
  end.

(** Lines 140-146. *)
Definition extract_text (content_parts : pyval) : result string :=
  match content_parts with
  | PList parts => py_join " " (map part_text (List.filter is_text_part parts))
  | _ => Ok (py_str content_parts)
  end.

Definition event_file (session_id : string) (idx : nat) : string :=
  path_join events_dir
    ("openclaw_" +:+ session_id +:+ "_" +:+ pretty idx +:+ ".json").

Definition conversation_event (role : pyval) (text_content : string)
    (timestamp : pyval) (session_id : string) (idx : nat) : pyval :=
  PDict [
    ("type", PStr "conversation");
    ("role", role);
    ("content", PStr text_content);
    ("timestamp", timestamp);
    ("session", PStr session_id);
    ("message_index", PInt (Z.of_nat idx));
    ("migrated_from", PStr "openclaw")
  ].

(** The body of the loop over the enumerated lines of one session file;
    [total] is the counter and every early [mret total] is a [continue]. *)
Definition migrate_line (session_id : string) (total : nat)
    (numbered : nat * string) : io nat :=
  let '(idx, line) := numbered in
  match loads line with
  | None => mret total
  | Some msg =>
      ty ← lift (py_get msg "type" PNone);
      if negb (eq_str ty "message") then mret total else
      has_message ← lift (py_in "message" msg);
      if negb has_message then mret total else
      inner_msg ← lift (py_getitem msg "message");
      has_role ← lift (py_in "role" inner_msg);
      if negb has_role then mret total else
      has_content ← lift (py_in "content" inner_msg);
      if negb has_content then mret total else
      content_parts ← lift (py_get inner_msg "content" (PList []));
      text_content ← lift (extract_text content_parts);
      role ← lift (py_get inner_msg "role" PNone);
      timestamp ← lift (py_get msg "timestamp" (PStr "unknown"));
      json_dump (event_file session_id idx)
        (conversation_event role text_content timestamp session_id idx);;
      mret (S total)
  end.

Definition migrate_session (total : nat) (file : string * list string) : io nat :=
  let session_id := stem file.1 in
  open_read (path_join sessions_path file.1);;
  for_each (migrate_line session_id) (enumerate file.2) total.

Definition migrate_conversations (src : sources) : io nat :=
  match sessions_dir src with
  | None =>
      print "   ⚠️  No sessions found";;
      mret 0%nat
  | Some listing =>
      let sessions := List.filter (fun f => active_session f.1) listing in
      print ("   Found " +:+ pretty (length sessions) +:+ " active sessions");;
      for_each migrate_session sessions 0%nat
  end.

(** *** Step 3: personality *)

Definition config_path : string := "openclaw.json".
Definition personality_file : string :=
  path_join "memory" "openclaw_personality.json".

Definition personality (now : string) (config : pyval) : pyval :=
  PDict [
    ("source", PStr "openclaw");
    ("migrated_at", PStr (now +:+ "Z"));
    ("config", config);
    ("notes", PStr "Migrated from OpenClaw. Review and integrate into Nexus system prompts.")
  ].

Definition extract_personality (src : sources) : io unit :=
  match config_file src with
  | None => print "   ⚠️  No config found"
  | Some content =>
      open_read config_path;;
      config ← lift (json_loads (PStr content));
      json_dump personality_file (personality (utcnow src) config)
  end.

(** *** The script *)

Definition main (src : sources) : io unit :=
  print "🔄 OpenClaw → Nexus Migration Tool";;
  print (str_repeat "━" 40);;
  print "";;
  mkdir vector_dir;;
  mkdir events_dir;;
  mkdir graph_dir;;
  print "📦 Step 1: Migrating code chunks & embeddings...";;
  migrated_chunks ← migrate_code_chunks src;
  print ("   ✅ Migrated " +:+ pretty migrated_chunks +:+ " chunks");;
  print (nl +:+ "💬 Step 2: Migrating conversation history...");;
  migrated_messages ← migrate_conversations src;
  print ("   ✅ Migrated " +:+ pretty migrated_messages +:+ " messages");;
  print (nl +:+ "🧠 Step 3: Extracting agent personality...");;
  extract_personality src;;
  print "   ✅ Extracted personality config";;
  print (nl +:+ "📊 Migration Summary");;
  print (str_repeat "━" 40);;
  print ("✅ Migrated " +:+ pretty migrated_chunks +:+ " code chunks");;
  print ("✅ Migrated " +:+ pretty migrated_messages +:+ " conversation messages");;
  print "✅ Extracted personality config";;
  print "";;
  print ("Location: " +:+ path_join (nexus_path (home src)) "memory");;
  print (nl +:+ "Next steps:");;
  print "1. Review migrated data";;
  print "2. Run: nexus memory-stats".

(** One run of the tool from a given tree. *)
Definition run_tool (src : sources) (t : nexus_tree) : nexus_tree :=
  replay t (main src).1.

(** ** Laws of the monad and of the loop *)

Lemma io_eta {A} (m : io A) : (m.1, m.2) = m.
Proof. by destruct m. Qed.

Lemma bind_trace {A B} (m : io A) (f : A -> io B) :
  (m ≫= f).1 = m.1 ++ match m.2 with Ok a => (f a).1 | Raise _ => [] end.
Proof.
  unfold mbind, io_bind. destruct m as [t [a|e]]; simpl; [done|].
  by rewrite app_nil_r.
Qed.

Lemma bind_result {A B} (m : io A) (f : A -> io B) :
  (m ≫= f).2 = match m.2 with Ok a => (f a).2 | Raise e => Raise e end.
Proof. unfold mbind, io_bind. by destruct m as [t [a|e]]. Qed.

Lemma bind_lift_ok {A B} (a : A) (f : A -> io B) : (lift (Ok a) ≫= f) = f a.
Proof. unfold mbind, io_bind, lift. simpl. apply io_eta. Qed.

Lemma bind_lift_raise {A B} (e : exn) (f : A -> io B) :
  (lift (Raise e) ≫= f) = ([], Raise e).
Proof. done. Qed.

Lemma bind_perform {B} (a : action) (f : unit -> io B) :
  (perform a ≫= f) = (a :: (f tt).1, (f tt).2).
Proof. done. Qed.

Lemma bind_ret {A B} (a : A) (f : A -> io B) : (mret a ≫= f) = f a.
Proof. unfold mbind, io_bind, mret, io_ret. simpl. apply io_eta. Qed.

Lemma dumps_app t1 t2 : dumps (t1 ++ t2) = dumps t1 ++ dumps t2.
Proof.
  induction t1 as [|[l|d|p|p doc] t1 IH]; simpl; [done|done|done|done|].
  by rewrite IH.
Qed.

Lemma reads_app t1 t2 : reads (t1 ++ t2) = reads t1 ++ reads t2.
Proof.
  induction t1 as [|[l|d|p|p doc] t1 IH]; simpl; [done|done|done| |done].
  by rewrite IH.
Qed.

Lemma made_dirs_app t1 t2 : made_dirs (t1 ++ t2) = made_dirs t1 ++ made_dirs t2.
Proof.
  induction t1 as [|[l|d|p|p doc] t1 IH]; simpl; [done|done| |done|done].
  by rewrite IH.
Qed.

Lemma in_dumps p doc trace : In (p, doc) (dumps trace) <-> In (JsonDump p doc) trace.
Proof.
  induction trace as [|[l|d|q|q doc'] trace IH]; simpl.
  - done.
  - rewrite IH. split; [by right | by intros [|]].
  - rewrite IH. split; [by right | by intros [|]].
  - rewrite IH. split; [by right | by intros [|]].
  - rewrite IH. split; (intros [H|H]; [left; congruence | by right]).
Qed.

Lemma for_each_cons {A S} (body : S -> A -> io S) x l s :
  for_each body (x :: l) s = (body s x ≫= for_each body l).
Proof. done. Qed.

(** Every action of a loop is an action of one of its iterations. *)
Lemma for_each_trace_in {A S} (body : S -> A -> io S) l s a :
  In a (for_each body l s).1 -> exists x s', In x l /\ In a (body s' x).1.
Proof.
  revert s. induction l as [|x l IH]; intros s; simpl; [done|].
  rewrite bind_trace. intros [H|H]%in_app_or.
  - exists x, s. split; [by left | done].
  - destruct (body s x).2 as [s1|e]; [|done].
    destruct (IH _ H) as (y & s' & Hy & Ha). exists y, s'. split; [by right | done].
Qed.

(** An iteration that raises whatever the loop-carried state is makes the
    loop raise. *)
Lemma for_each_raises {A S} (body : S -> A -> io S) l s x :
  In x l -> (forall s', is_ok (body s' x).2 = false) ->
  is_ok (for_each body l s).2 = false.
Proof.
  revert s. induction l as [|y l IH]; intros s; simpl; [done|].
  intros Hin Hx. rewrite bind_result.
  destruct (body s y).2 as [s1|e] eqn:Hy; [|done].
  destruct Hin as [->|Hin]; [|by apply IH].
  specialize (Hx s). by rewrite Hy in Hx.
Qed.

(** When the loop returns, every iteration ran and returned. *)
Lemma for_each_ok_in {A S} (body : S -> A -> io S) l s r x :
  (for_each body l s).2 = Ok r -> In x l ->
  exists s' s'', (body s' x).2 = Ok s'' /\
    forall a, In a (body s' x).1 -> In a (for_each body l s).1.
Proof.
  revert s. induction l as [|y l IH]; intros s; simpl; [done|].
  rewrite bind_result, bind_trace.
  destruct (body s y).2 as [s1|e] eqn:Hy; [|done].
  intros Hr [->|Hin].
  - exists s, s1. split; [done|]. intros a Ha. apply in_or_app. by left.
  - destruct (IH _ Hr Hin) as (s' & s'' & Hb & Hsub).
    exists s', s''. split; [done|]. intros a Ha. apply in_or_app. right. by apply Hsub.
Qed.

Lemma in_enumerate_from {A} (l : list A) start i x :
  In (i, x) (enumerate_from start l) <->
  (start <= i)%nat /\ l !! (i - start)%nat = Some x.
Proof.
  revert start. induction l as [|y l IH]; intros start; simpl.
  - split; [done | by intros [_ ?]].
  - rewrite IH. split.
    + intros [Heq|[Hle Hl]].
      * injection Heq as -> ->. split; [lia|]. by rewrite Nat.sub_diag.
      * split; [lia|]. by replace (i - start)%nat with (S (i - S start)) by lia.
    + intros [Hle Hl]. destruct (decide (i = start)) as [->|Hne].
      * left. rewrite Nat.sub_diag in Hl. simpl in Hl. congruence.
      * right. split; [lia|].
        by replace (i - start)%nat with (S (i - S start)) in Hl by lia.
Qed.

Lemma in_enumerate {A} (l : list A) i x :
  In (i, x) (enumerate l) <-> l !! i = Some x.
Proof.
  unfold enumerate. rewrite in_enumerate_from, Nat.sub_0_r.
  split; [by intros [_ ?] | intros; split; [lia | done]].
Qed.

(** ** Replaying a trace *)

Lemma replay_app t tr1 tr2 : replay t (tr1 ++ tr2) = replay (replay t tr1) tr2.
Proof. unfold replay. apply foldl_app. Qed.

(** A file of the replayed tree holds the latest document dumped into it,
    and what it held before when the trace does not touch it. *)
Lemma replay_lookup t trace p :
  tree_files (replay t trace) !! p =
  match last_write p (dumps trace) with
  | Some d => Some d
  | None => tree_files t !! p
  end.
Proof.
  revert t. induction trace as [|a trace IH]; intros t; [done|].
  change (replay t (a :: trace)) with (replay (apply_action t a) trace).
  rewrite IH. destruct a as [l|d|q|q doc]; simpl; try done.
  destruct (last_write p (dumps trace)) as [d|]; [done|].
  destruct (String.eqb_spec q p) as [->|Hne].
  - by rewrite lookup_insert_eq.
  - by rewrite lookup_insert_ne.
Qed.

Lemma replay_dirs t trace :
  tree_dirs (replay t trace) = list_to_set (made_dirs trace) ∪ tree_dirs t.
Proof.
  revert t. induction trace as [|a trace IH]; intros t.
  - simpl. set_solver.
  - change (replay t (a :: trace)) with (replay (apply_action t a) trace).
    rewrite IH. destruct a as [l|d|q|q doc]; simpl; try done. set_solver.
Qed.

Lemma last_write_app p ds1 ds2 :
  last_write p (ds1 ++ ds2) =
  match last_write p ds2 with
  | Some d => Some d
  | None => last_write p ds1
  end.
Proof.
  induction ds1 as [|[q doc] ds1 IH]; simpl.
  - by destruct (last_write p ds2).
  - rewrite IH. by destruct (last_write p ds2).
Qed.

Lemma last_write_none p ds : ~ In p (map fst ds) -> last_write p ds = None.
Proof.
  induction ds as [|[q doc] ds IH]; simpl; [done|].
  intros Hnot. rewrite IH by tauto.
  destruct (String.eqb_spec q p) as [->|Hne]; [tauto | done].
Qed.

(** With one dump per path, the file holds that dump. *)
Lemma last_write_unique p doc ds :
  NoDup (map fst ds) -> In (p, doc) ds -> last_write p ds = Some doc.
Proof.
  induction ds as [|[q doc'] ds IH]; simpl; [done|].
  intros Hnd Hin. apply NoDup_cons in Hnd as [Hq Hnd].
  destruct Hin as [Heq|Hin].
  - injection Heq as -> ->. rewrite last_write_none.
    + by rewrite String.eqb_refl.
    + by rewrite <- list_elem_of_In.
  - by rewrite (IH Hnd Hin).
Qed.

(** Replaying a trace a second time changes nothing. *)
Lemma replay_idempotent t trace :
  replay (replay t trace) trace = replay t trace.
Proof.
  destruct (replay (replay t trace) trace) as [d2 f2] eqn:H2.
  destruct (replay t trace) as [d1 f1] eqn:H1.
  assert (Hd : d2 = d1).
  { change d2 with (tree_dirs {| tree_dirs := d2; tree_files := f2 |}).
    rewrite <- H2, replay_dirs. simpl.
    change d1 with (tree_dirs {| tree_dirs := d1; tree_files := f1 |}).
    rewrite <- H1, replay_dirs. set_solver. }
  assert (Hf : f2 = f1).
  { apply map_eq. intros p.
    change f2 with (tree_files {| tree_dirs := d2; tree_files := f2 |}).
    rewrite <- H2, replay_lookup. simpl.
    change f1 with (tree_files {| tree_dirs := d1; tree_files := f1 |}).
    rewrite <- H1, replay_lookup.
    by destruct (last_write p (dumps trace)). }
  by subst.
Qed.

(** ** Step 1: the chunk migrator *)

Lemma migrate_chunk_cases migrated row :
  migrate_chunk migrated row =
  if has_embedding row
  then ([JsonDump (chunk_file row) (chunk_entry row)], Ok (S migrated))
  else ([], Ok migrated).
Proof. unfold migrate_chunk. by destruct (has_embedding row). Qed.

(** The loop over the rows never raises: it dumps the rows that have an
    embedding, in order, and counts them. *)
Lemma migrate_chunks_loop rows migrated :
  for_each migrate_chunk rows migrated =
  (map (fun row => JsonDump (chunk_file row) (chunk_entry row))
       (List.filter has_embedding rows),
   Ok (migrated + length (List.filter has_embedding rows))%nat).
Proof.
  revert migrated. induction rows as [|row rows IH]; intros migrated.
  - simpl. by rewrite Nat.add_0_r.
  - rewrite for_each_cons, migrate_chunk_cases. simpl.
    destruct (has_embedding row); unfold mbind, io_bind; simpl; rewrite IH; simpl.
    + do 2 f_equal. lia.
    + done.
Qed.

Lemma dumps_map_dump {A} (f : A -> string) (g : A -> pyval) (l : list A) :
  dumps (map (fun x => JsonDump (f x) (g x)) l) = map (fun x => (f x, g x)) l.
Proof. induction l as [|x l IH]; simpl; [done | by rewrite IH]. Qed.

Lemma migrate_code_chunks_present src rows :
  database src = Some rows ->
  (migrate_code_chunks src).2 = Ok (length (List.filter has_embedding rows)) /\
  dumps (migrate_code_chunks src).1 =
    map (fun row => (chunk_file row, chunk_entry row)) (List.filter has_embedding rows).
Proof.
  intros Hdb. unfold migrate_code_chunks. rewrite Hdb.
  unfold open_read, print. rewrite !bind_perform, migrate_chunks_loop. simpl.
  split; [done|].
  apply dumps_map_dump.
Qed.

Lemma migrate_code_chunks_ok src : exists n, (migrate_code_chunks src).2 = Ok n.
Proof.
  destruct (database src) as [rows|] eqn:Hdb.
  - eexists. by apply migrate_code_chunks_present.
  - exists 0%nat. unfold migrate_code_chunks. by rewrite Hdb.
Qed.

(** What lines 73-78 let through: a non-empty text that parses to a value
    Python takes for true. *)
Lemma has_embedding_iff row :
  has_embedding row = true <->
  exists s v, embedding row = PStr s /\ s <> "" /\ loads s = Some v /\ truthy v = true.
Proof.
  unfold has_embedding, embedding_list, json_loads. split.
  - destruct (embedding row) as [|b|n|x|s|items|entries] eqn:Hcell; simpl;
      try done;
      try (match goal with
           | |- context [if ?c then Raise TypeError else _] => by destruct c
           end).
    destruct (String.eqb_spec s "") as [->|Hne]; simpl; [done|].
    destruct (loads s) as [v|] eqn:Hv; simpl; [|done].
    intros Ht. by exists s, v.
  - intros (s & v & -> & Hne & Hv & Ht). simpl.
    destruct (String.eqb_spec s "") as [->|_]; [done|]. simpl. by rewrite Hv.
Qed.

(** ** Step 2: the conversation migrator *)

(** One step of symbolic execution through the monad. *)
Ltac io_step :=
  repeat first
    [ rewrite bind_lift_ok
    | rewrite bind_lift_raise
    | rewrite bind_perform
    | progress cbn [negb py_get py_in py_getitem] ].

Lemma eq_str_true v s : eq_str v s = true <-> v = PStr s.
Proof.
  destruct v; simpl; try (split; [discriminate | discriminate]).
  rewrite String.eqb_eq. split; [by intros -> | by intros [= ->]].
Qed.

Lemma dict_get_message entries k s :
  dict_get entries k PNone = PStr s <-> assoc_get k entries = Some (PStr s).
Proof.
  unfold dict_get. destruct (assoc_get k entries); split; congruence.
Qed.

Lemma dict_get_some entries k v dflt :
  assoc_get k entries = Some v -> dict_get entries k dflt = v.
Proof. unfold dict_get. by intros ->. Qed.

(** A line that passes the filter of lines 126-136 with an inner dict is
    dumped under its own index, unless extracting its text raises. *)
Lemma migrate_line_qualifying session_id total idx line msg inner role content :
  loads line = Some (PDict msg) ->
  assoc_get "type" msg = Some (PStr "message") ->
  assoc_get "message" msg = Some (PDict inner) ->
  assoc_get "role" inner = Some role ->
  assoc_get "content" inner = Some content ->
  migrate_line session_id total (idx, line) =
  match extract_text content with
  | Ok text_content =>
      ([JsonDump (event_file session_id idx)
          (conversation_event role text_content
             (dict_get msg "timestamp" (PStr "unknown")) session_id idx)],
       Ok (S total))
  | Raise e => ([], Raise e)
  end.
Proof.
  intros Hline Hty Hmsg Hrole Hcontent. unfold migrate_line. rewrite Hline.
  apply dict_get_message, eq_str_true in Hty.
  io_step. rewrite Hty, Hmsg. io_step. rewrite Hrole. io_step.
  rewrite Hcontent. io_step.
  rewrite (dict_get_some _ _ _ (PList []) Hcontent).
  destruct (extract_text content) as [text_content|e]; io_step; [|done].
  rewrite (dict_get_some _ _ _ PNone Hrole). unfold json_dump. by io_step.
Qed.

(** What one line can do: be skipped, raise before anything is written, or
    be dumped as in [migrate_line_emits]. *)
Lemma migrate_line_cases session_id total idx line :
  migrate_line session_id total (idx, line) = ([], Ok total) \/
  (exists e, migrate_line session_id total (idx, line) = ([], Raise e)) \/
  (exists msg inner role content text_content,
     loads line = Some (PDict msg) /\
     assoc_get "type" msg = Some (PStr "message") /\
     assoc_get "message" msg = Some (PDict inner) /\
     assoc_get "role" inner = Some role /\
     assoc_get "content" inner = Some content /\
     extract_text content = Ok text_content /\
     migrate_line session_id total (idx, line) =
     ([JsonDump (event_file session_id idx)
         (conversation_event role text_content
            (dict_get msg "timestamp" (PStr "unknown")) session_id idx)],
      Ok (S total))).
Proof.
  destruct (loads line) as [msg|] eqn:Hline;
    [|left; unfold migrate_line; by rewrite Hline].
  destruct msg as [|b|n|x|s|items|msg];
    try (right; left; exists AttributeError; unfold migrate_line; by rewrite Hline).
  destruct (eq_str (dict_get msg "type" PNone) "message") eqn:Hty;
    [|left; unfold migrate_line; rewrite Hline; io_step; by rewrite Hty].
  destruct (assoc_get "message" msg) as [inner_msg|] eqn:Hmsg;
    [|left; unfold migrate_line; rewrite Hline; io_step; rewrite Hty, Hmsg; by io_step].
  assert (Hstart :
    migrate_line session_id total (idx, line) =
    (has_role ← lift (py_in "role" inner_msg);
     if negb has_role then mret total else
     has_content ← lift (py_in "content" inner_msg);
     if negb has_content then mret total else
     content_parts ← lift (py_get inner_msg "content" (PList []));
     text_content ← lift (extract_text content_parts);
     role ← lift (py_get inner_msg "role" PNone);
     json_dump (event_file session_id idx)
       (conversation_event role text_content
          (dict_get msg "timestamp" (PStr "unknown")) session_id idx);;
     mret (S total))).
  { unfold migrate_line. rewrite Hline. io_step. rewrite Hty, Hmsg.
    io_step. do 5 (f_equal; try done). }
  rewrite Hstart. clear Hstart.
  destruct inner_msg as [|b|n|x|s|items|inner]; io_step;
    try (right; left; by eexists).
  - destruct (str_contains "role" s); io_step; [|by left].
    destruct (str_contains "content" s); io_step; [|by left].
    right; left; by eexists.
  - destruct (existsb _ items); io_step; [|by left].
    destruct (existsb _ items); io_step; [|by left].
    right; left; by eexists.
  - destruct (assoc_get "role" inner) as [role|] eqn:Hrole; io_step; [|by left].
    destruct (assoc_get "content" inner) as [content|] eqn:Hcontent; io_step;
      [|by left].
    rewrite (dict_get_some _ _ _ (PList []) Hcontent).
    destruct (extract_text content) as [text_content|e] eqn:Htext; io_step;
      [|right; left; by eexists].
    right; right. exists msg, inner, role, content, text_content.
    rewrite (dict_get_some _ _ _ PNone Hrole). unfold json_dump. io_step.
    repeat split; try done.
    by apply dict_get_message, eq_str_true.
Qed.

Lemma migrate_line_trace_in session_id total idx line a :
  In a (migrate_line session_id total (idx, line)).1 ->
  exists msg inner role content text_content,
    loads line = Some (PDict msg) /\
    assoc_get "type" msg = Some (PStr "message") /\
    assoc_get "message" msg = Some (PDict inner) /\
    assoc_get "role" inner = Some role /\
    assoc_get "content" inner = Some content /\
    extract_text content = Ok text_content /\
    a = JsonDump (event_file session_id idx)
          (conversation_event role text_content
             (dict_get msg "timestamp" (PStr "unknown")) session_id idx).
Proof.
  destruct (migrate_line_cases session_id total idx line)
    as [H|[[e H]|(msg & inner & role & content & text_content & H)]].
  - by rewrite H.
  - by rewrite H.
  - destruct H as (H1 & H2 & H3 & H4 & H5 & H6 & H).
    rewrite H. intros [<-|[]]. by exists msg, inner, role, content, text_content.
Qed.

(** The actions of the loop over the lines of one file are dumps of lines
    of the file, each under the position of its line. *)
Lemma session_lines_trace_in session_id lines total a :
  In a (for_each (migrate_line session_id) (enumerate lines) total).1 ->
  exists idx line msg inner role content text_content,
    lines !! idx = Some line /\
    loads line = Some (PDict msg) /\
    assoc_get "type" msg = Some (PStr "message") /\
    assoc_get "message" msg = Some (PDict inner) /\
    assoc_get "role" inner = Some role /\
    assoc_get "content" inner = Some content /\
    extract_text content = Ok text_content /\
    a = JsonDump (event_file session_id idx)
          (conversation_event role text_content
             (dict_get msg "timestamp" (PStr "unknown")) session_id idx).
Proof.
  intros Ha. apply for_each_trace_in in Ha as ([idx line] & total' & Hin & Ha).
  apply in_enumerate in Hin.
  apply migrate_line_trace_in in Ha
    as (msg & inner & role & content & text_content & H).
  by exists idx, line, msg, inner, role, content, text_content.
Qed.

Lemma only_dumps trace :
  (forall a, In a trace -> exists p doc, a = JsonDump p doc) ->
  reads trace = [] /\ made_dirs trace = [].
Proof.
  induction trace as [|a trace IH]; intros H; [done|].
  destruct (H a) as (p & doc & ->); [by left|]. simpl.
  apply IH. intros b Hb. apply H. by right.
Qed.

Lemma session_lines_only_dumps session_id lines total :
  reads (for_each (migrate_line session_id) (enumerate lines) total).1 = [] /\
  made_dirs (for_each (migrate_line session_id) (enumerate lines) total).1 = [].
Proof.
  apply only_dumps. intros a Ha.
  apply session_lines_trace_in in Ha
    as (idx & line & msg & inner & role & content & text_content & H).
  destruct H as (_ & _ & _ & _ & _ & _ & _ & ->). by eexists _, _.
Qed.

Lemma migrate_session_unfold total name lines :
  migrate_session total (name, lines) =
  (OpenRead (path_join sessions_path name)
     :: (for_each (migrate_line (stem name)) (enumerate lines) total).1,
   (for_each (migrate_line (stem name)) (enumerate lines) total).2).
Proof. unfold migrate_session, open_read. by rewrite bind_perform. Qed.

(** C2. For a session file of N lines, every event the migrator writes
    comes from a line of the file that parses to an object of type
    "message" whose inner object has the keys role and content; the
    message_index of the event, also used in its file name, is the
    zero-based position of that line among all the lines of the file, hence
    below N.  Conversely, when the pass over the file returns, every such
    line at position idx has its event written under index idx. *)
Theorem message_index_is_line_position total name lines :
  (forall p doc,
     In (JsonDump p doc) (migrate_session total (name, lines)).1 ->
     exists idx line msg inner role content,
       (idx < length lines)%nat /\
       lines !! idx = Some line /\
       p = event_file (stem name) idx /\
       py_get doc "message_index" PNone = Ok (PInt (Z.of_nat idx)) /\
       loads line = Some (PDict msg) /\
       assoc_get "type" msg = Some (PStr "message") /\
       assoc_get "message" msg = Some (PDict inner) /\
       assoc_get "role" inner = Some role /\
       assoc_get "content" inner = Some content) /\
  (forall n idx line msg inner role content,
     (migrate_session total (name, lines)).2 = Ok n ->
     lines !! idx = Some line ->
     loads line = Some (PDict msg) ->
     assoc_get "type" msg = Some (PStr "message") ->
     assoc_get "message" msg = Some (PDict inner) ->
     assoc_get "role" inner = Some role ->
     assoc_get "content" inner = Some content ->
     exists doc,
       In (JsonDump (event_file (stem name) idx) doc)
          (migrate_session total (name, lines)).1 /\
       py_get doc "message_index" PNone = Ok (PInt (Z.of_nat idx))).
Proof.
  rewrite migrate_session_unfold. cbn [fst snd]. split.
  - intros p doc [Hin|Hin]; [done|].
    apply session_lines_trace_in in Hin
      as (idx & line & msg & inner & role & content & text_content & H).
    destruct H as (Hl & Hline & Hty & Hmsg & Hrole & Hcontent & _ & [= -> ->]).
    exists idx, line, msg, inner, role, content.
    repeat split; try done. by eapply lookup_lt_Some.
  - intros n idx line msg inner role content Hok Hl Hline Hty Hmsg Hrole Hcontent.
    apply in_enumerate in Hl.
    destruct (for_each_ok_in _ _ _ _ _ Hok Hl) as (total' & total'' & Hbody & Hsub).
    rewrite (migrate_line_qualifying _ _ _ _ _ _ _ _ Hline Hty Hmsg Hrole Hcontent)
      in Hbody, Hsub.
    destruct (extract_text content) as [text_content|e]; [|done].
    eexists. split; [right; apply Hsub; by left | done].
Qed.

(** ** The script as a whole *)

Ltac skip_prints := repeat (rewrite bind_perform; cbn [fst snd dumps reads made_dirs]).

(** The script fails exactly when the conversation pass or the personality
    pass raises; the chunk pass never does. *)
Lemma main_result src :
  (main src).2 =
  match (migrate_conversations src).2 with
  | Ok _ =>
      match (extract_personality src).2 with
      | Ok _ => Ok tt
      | Raise e => Raise e
      end
  | Raise e => Raise e
  end.
Proof.
  unfold main, print, mkdir. skip_prints.
  rewrite bind_result. destruct (migrate_code_chunks_ok src) as [n ->].
  skip_prints. rewrite bind_result.
  destruct (migrate_conversations src).2 as [m|e]; [|done].
  skip_prints. rewrite bind_result.
  destruct (extract_personality src).2 as [[]|e]; [|done].
  by skip_prints.
Qed.

Lemma main_dumps src :
  dumps (main src).1 =
  dumps (migrate_code_chunks src).1 ++
  dumps (migrate_conversations src).1 ++
  match (migrate_conversations src).2 with
  | Ok _ => dumps (extract_personality src).1
  | Raise _ => []
  end.
Proof.
  unfold main, print, mkdir. skip_prints.
  rewrite bind_trace, dumps_app. f_equal.
  destruct (migrate_code_chunks_ok src) as [n ->].
  skip_prints. rewrite bind_trace, dumps_app. f_equal.
  destruct (migrate_conversations src).2 as [m|e]; [|done].
  skip_prints. rewrite bind_trace, dumps_app.
  destruct (extract_personality src).2 as [[]|e]; [|by rewrite app_nil_r].
  skip_prints. by rewrite app_nil_r.
Qed.

Lemma main_made_dirs src :
  made_dirs (main src).1 =
  [vector_dir; events_dir; graph_dir] ++
  made_dirs (migrate_code_chunks src).1 ++
  made_dirs (migrate_conversations src).1 ++
  match (migrate_conversations src).2 with
  | Ok _ => made_dirs (extract_personality src).1
  | Raise _ => []
  end.
Proof.
  unfold main, print, mkdir. skip_prints. do 3 f_equal.
  rewrite bind_trace, made_dirs_app. f_equal.
  destruct (migrate_code_chunks_ok src) as [n ->].
  skip_prints. rewrite bind_trace, made_dirs_app. f_equal.
  destruct (migrate_conversations src).2 as [m|e]; [|done].
  skip_prints. rewrite bind_trace, made_dirs_app.
  destruct (extract_personality src).2 as [[]|e]; [|by rewrite app_nil_r].
  skip_prints. by rewrite app_nil_r.
Qed.

(** C10. The timestamp of every written event is the value the top-level
    object of its line holds under "timestamp", and the text "unknown" when
    the top-level object has no such key; the inner message object is not
    consulted, whatever it holds. *)
Theorem event_timestamp_from_top_level total name lines p doc :
  In (JsonDump p doc) (migrate_session total (name, lines)).1 ->
  exists idx line msg inner,
    lines !! idx = Some line /\
    p = event_file (stem name) idx /\
    loads line = Some (PDict msg) /\
    assoc_get "message" msg = Some (PDict inner) /\
    py_get doc "timestamp" PNone = Ok (dict_get msg "timestamp" (PStr "unknown")) /\
    (assoc_get "timestamp" msg = None ->
     py_get doc "timestamp" PNone = Ok (PStr "unknown")).
Proof.
  rewrite migrate_session_unfold. cbn [fst snd]. intros [Hin|Hin]; [done|].
  apply session_lines_trace_in in Hin
    as (idx & line & msg & inner & role & content & text_content & H).
  destruct H as (Hl & Hline & Hty & Hmsg & Hrole & Hcontent & _ & [= -> ->]).
  exists idx, line, msg, inner. repeat split; try done.
  intros Hnone. cbn. unfold dict_get. by rewrite Hnone.
Qed.

Lemma in_lines_raises session_id total lines line :
  In line lines ->
  (forall total' idx, is_ok (migrate_line session_id total' (idx, line)).2 = false) ->
  is_ok (for_each (migrate_line session_id) (enumerate lines) total).2 = false.
Proof.
  intros Hin Hraise. apply list_elem_of_In, list_elem_of_lookup in Hin as [idx Hl].
  apply (for_each_raises _ _ _ (idx, line)); [by apply in_enumerate | done].
Qed.

(** A line that raises, in a file that is read, makes the pass and the
    script fail. *)
Lemma raising_line_aborts src listing name lines line :
  sessions_dir src = Some listing ->
  In (name, lines) listing ->
  active_session name = true ->
  In line lines ->
  (forall session_id total idx,
     is_ok (migrate_line session_id total (idx, line)).2 = false) ->
  is_ok (migrate_conversations src).2 = false /\ exit_status (main src) = 1%Z.
Proof.
  intros Hdir Hfile Hactive Hline Hraise.
  assert (Hconv : is_ok (migrate_conversations src).2 = false).
  { unfold migrate_conversations. rewrite Hdir. unfold print.
    rewrite bind_perform. cbn [snd].
    apply (for_each_raises _ _ _ (name, lines)).
    - apply filter_In. by split.
    - intros total. rewrite migrate_session_unfold. cbn [snd].
      by apply (in_lines_raises _ _ _ line). }
  split; [done|]. unfold exit_status. rewrite main_result.
  by destruct (migrate_conversations src).2.
Qed.

(** C9. A line that parses to an object of type "message" whose "message"
    value is a string containing both "role" and "content" passes the two
    membership tests, which on a string look for substrings; the [get] that
    follows raises AttributeError.  Nothing catches it: the conversation
    pass raises and the script exits with status 1, whatever the other
    lines and files are. *)
Theorem string_message_aborts_the_run line msg s :
  loads line = Some (PDict msg) ->
  assoc_get "type" msg = Some (PStr "message") ->
  assoc_get "message" msg = Some (PStr s) ->
  str_contains "role" s = true ->
  str_contains "content" s = true ->
  (forall session_id total idx,
     migrate_line session_id total (idx, line) = ([], Raise AttributeError)) /\
  (forall src listing name lines,
     sessions_dir src = Some listing ->
     In (name, lines) listing ->
     active_session name = true ->
     In line lines ->
     is_ok (migrate_conversations src).2 = false /\ exit_status (main src) = 1%Z).
Proof.
  intros Hline Hty Hmsg Hrole Hcontent.
  assert (Hraise : forall session_id total idx,
    migrate_line session_id total (idx, line) = ([], Raise AttributeError)).
  { intros session_id total idx. unfold migrate_line. rewrite Hline.
    apply dict_get_message, eq_str_true in Hty.
    io_step. rewrite Hty, Hmsg. io_step. rewrite Hrole. io_step.
    rewrite Hcontent. by io_step. }
  split; [done|]. intros src listing name lines Hdir Hfile Hactive Hin.
  apply (raising_line_aborts src listing name lines line); try done.
  intros session_id total idx. by rewrite Hraise.
Qed.

Lemma str_items_strings texts : str_items (map PStr texts) = Ok texts.
Proof. induction texts as [|t texts IH]; simpl; [done | by rewrite IH]. Qed.

(** C4, as amended.  For content that is a list in which the "text" field
    of every part of type "text" is a string (an absent field counts as the
    empty string), the extracted text is the space-separated concatenation
    of those fields, in order; a part counts when it is an object whose
    "type" is the string "text", and the other parts contribute nothing.
    The list [{type: text, text: a}, {type: other}, {type: text, text: b}]
    yields "a b".  Content that is not a list is stringified. *)
Theorem extract_text_joins_text_parts :
  (forall parts texts,
     map part_text (List.filter is_text_part parts) = map PStr texts ->
     extract_text (PList parts) = Ok (String.concat " " texts)) /\
  (forall part,
     is_text_part part = true <->
     exists entries, part = PDict entries /\
                     assoc_get "type" entries = Some (PStr "text")) /\
  (forall entries,
     part_text (PDict entries) =
     match assoc_get "text" entries with Some t => t | None => PStr "" end) /\
  extract_text (PList [text_part "a"; PDict [("type", PStr "other")]; text_part "b"])
    = Ok "a b" /\
  (forall content,
     (forall parts, content <> PList parts) ->
     extract_text content = Ok (py_str content)).
Proof.
  split; [|split; [|split; [|split]]].
  - intros parts texts Htexts. unfold extract_text, py_join.
    by rewrite Htexts, str_items_strings.
  - intros part. destruct part as [|b|n|x|t|items|entries]; simpl;
      try (split; [done | by intros (? & ? & _)]).
    rewrite eq_str_true, dict_get_message. split.
    + intros H. by exists entries.
    + by intros (? & [= <-] & H).
  - done.
  - done.
  - intros content Hnot. destruct content; try done. by destruct (Hnot items).
Qed.

(** ** Paths *)

Lemma append_inj_l (a x y : string) : a +:+ x = a +:+ y -> x = y.
Proof. induction a as [|c a IH]; simpl; [done|]. intros [= H]. by apply IH. Qed.

Lemma path_join_inj (a x y : string) : path_join a x = path_join a y -> x = y.
Proof.
  unfold path_join. intros H. apply append_inj_l in H. simpl in H.
  by injection H.
Qed.

Lemma chunk_file_not_personality row : chunk_file row <> personality_file.
Proof. unfold chunk_file. cbn. discriminate. Qed.

Lemma event_file_not_personality session_id idx :
  event_file session_id idx <> personality_file.
Proof. unfold event_file. cbn. discriminate. Qed.

(** ** Step 3: the personality extractor *)

Lemma extract_personality_cases src :
  extract_personality src =
  match config_file src with
  | None => ([Stdout "   ⚠️  No config found"], Ok tt)
  | Some content =>
      match loads content with
      | None => ([OpenRead config_path], Raise JSONDecodeError)
      | Some config =>
          ([OpenRead config_path;
            JsonDump personality_file (personality (utcnow src) config)],
           Ok tt)
      end
  end.
Proof.
  unfold extract_personality. destruct (config_file src) as [content|]; [|done].
  unfold open_read, json_dump, json_loads. rewrite bind_perform.
  by destruct (loads content).
Qed.

(** ** Which files the passes touch *)

Lemma migrate_code_chunks_absent src :
  database src = None ->
  migrate_code_chunks src = ([Stdout "   ⚠️  No OpenClaw database found"], Ok 0%nat).
Proof. intros Hdb. unfold migrate_code_chunks. by rewrite Hdb. Qed.

Lemma migrate_conversations_absent src :
  sessions_dir src = None ->
  migrate_conversations src = ([Stdout "   ⚠️  No sessions found"], Ok 0%nat).
Proof. intros Hdir. unfold migrate_conversations. by rewrite Hdir. Qed.

Lemma in_reads p trace : In p (reads trace) <-> In (OpenRead p) trace.
Proof.
  induction trace as [|[l|d|q|q doc] trace IH]; simpl.
  - done.
  - rewrite IH. split; [by right | by intros [|]].
  - rewrite IH. split; [by right | by intros [|]].
  - rewrite IH. split; (intros [H|H]; [left; congruence | by right]).
  - rewrite IH. split; [by right | by intros [|]].
Qed.

Lemma migrate_conversations_present src listing :
  sessions_dir src = Some listing ->
  exists line,
    migrate_conversations src =
    (Stdout line
       :: (for_each migrate_session
             (List.filter (fun f => active_session f.1) listing) 0%nat).1,
     (for_each migrate_session
        (List.filter (fun f => active_session f.1) listing) 0%nat).2).
Proof.
  intros Hdir. unfold migrate_conversations. rewrite Hdir. unfold print.
  rewrite bind_perform. by eexists.
Qed.

(** Every action of the loop over the session files is the opening of one
    of them or the dump of an event. *)
Lemma sessions_loop_trace_in sessions total a :
  In a (for_each migrate_session sessions total).1 ->
  exists name lines,
    In (name, lines) sessions /\
    (a = OpenRead (path_join sessions_path name) \/
     exists idx doc, a = JsonDump (event_file (stem name) idx) doc).
Proof.
  intros Ha. apply for_each_trace_in in Ha as ([name lines] & total' & Hin & Ha).
  exists name, lines. split; [done|].
  rewrite migrate_session_unfold in Ha. destruct Ha as [<-|Ha]; [by left|].
  apply session_lines_trace_in in Ha
    as (idx & line & msg & inner & role & content & text_content & H).
  destruct H as (_ & _ & _ & _ & _ & _ & _ & ->). right. by eexists _, _.
Qed.

(** When the loop returns, it has opened every session file, in order. *)
Lemma sessions_loop_reads sessions total n :
  (for_each migrate_session sessions total).2 = Ok n ->
  reads (for_each migrate_session sessions total).1 =
  map (fun f => path_join sessions_path f.1) sessions.
Proof.
  revert total. induction sessions as [|[name lines] sessions IH]; intros total;
    [done|].
  rewrite for_each_cons, bind_result, bind_trace, reads_app.
  rewrite migrate_session_unfold. cbn [fst snd reads].
  destruct (session_lines_only_dumps (stem name) lines total) as [-> _].
  destruct (for_each (migrate_line (stem name)) (enumerate lines) total).2
    as [total'|e]; [|done].
  intros Hok. cbn. f_equal. by apply IH.
Qed.

(** Raising or not, the loop opens the session files in order and stops at
    the first one whose lines raise. *)
Lemma sessions_loop_reads_prefix sessions total :
  exists k,
    reads (for_each migrate_session sessions total).1 =
    map (fun f => path_join sessions_path f.1) (take k sessions).
Proof.
  revert total. induction sessions as [|[name lines] sessions IH]; intros total.
  - by exists 0%nat.
  - rewrite for_each_cons, bind_trace, reads_app, migrate_session_unfold.
    cbn [fst snd reads].
    destruct (session_lines_only_dumps (stem name) lines total) as [-> _].
    destruct (for_each (migrate_line (stem name)) (enumerate lines) total).2
      as [total'|e].
    + destruct (IH total') as [k Hk]. exists (S k). cbn. by rewrite Hk.
    + by exists 1%nat.
Qed.

Lemma chunk_dumps_not_personality src doc :
  ~ In (personality_file, doc) (dumps (migrate_code_chunks src).1).
Proof.
  destruct (database src) as [rows|] eqn:Hdb.
  - destruct (migrate_code_chunks_present src rows Hdb) as [_ ->].
    intros Hin. apply in_map_iff in Hin as (row & Heq & _).
    apply (chunk_file_not_personality row). congruence.
  - rewrite (migrate_code_chunks_absent src Hdb). cbn. tauto.
Qed.

Lemma conversation_dumps_not_personality src doc :
  ~ In (personality_file, doc) (dumps (migrate_conversations src).1).
Proof.
  rewrite in_dumps. destruct (sessions_dir src) as [listing|] eqn:Hdir.
  - destruct (migrate_conversations_present src listing Hdir) as [line ->].
    cbn [fst]. intros [Hin|Hin]; [done|].
    apply sessions_loop_trace_in in Hin as (name & lines & _ & [Hin|Hin]); [done|].
    destruct Hin as (idx & doc' & Heq).
    apply (event_file_not_personality (stem name) idx). congruence.
  - rewrite (migrate_conversations_absent src Hdir). cbn. by intros [|].
Qed.

(** ** The claims about the passes *)

(** C6.  A missing database, sessions directory or configuration file
    makes its own pass print a warning and return (with a zero count, and
    with no file written), without raising.  The script exits with status 0
    exactly when none of its three passes raises, so a missing source never
    makes it fail; with all three sources missing it exits with status 0 and
    writes no file. *)
Theorem missing_sources_are_skipped src :
  (database src = None ->
   migrate_code_chunks src =
   ([Stdout "   ⚠️  No OpenClaw database found"], Ok 0%nat)) /\
  (sessions_dir src = None ->
   migrate_conversations src = ([Stdout "   ⚠️  No sessions found"], Ok 0%nat)) /\
  (config_file src = None ->
   extract_personality src = ([Stdout "   ⚠️  No config found"], Ok tt)) /\
  (exit_status (main src) = 0%Z <->
   is_ok (migrate_code_chunks src).2 = true /\
   is_ok (migrate_conversations src).2 = true /\
   is_ok (extract_personality src).2 = true) /\
  (database src = None -> sessions_dir src = None -> config_file src = None ->
   exit_status (main src) = 0%Z /\ dumps (main src).1 = []).
Proof.
  split; [apply migrate_code_chunks_absent|].
  split; [apply migrate_conversations_absent|].
  split; [intros Hc; by rewrite extract_personality_cases, Hc|].
  split.
  - unfold exit_status. rewrite main_result.
    destruct (migrate_code_chunks_ok src) as [n ->].
    destruct (migrate_conversations src).2 as [m|e];
      destruct (extract_personality src).2 as [[]|e']; cbn; split; try done;
      by intros (_ & ? & ?).
  - intros Hdb Hdir Hcfg. unfold exit_status.
    rewrite main_result, main_dumps.
    rewrite (migrate_code_chunks_absent src Hdb).
    rewrite (migrate_conversations_absent src Hdir).
    by rewrite extract_personality_cases, Hcfg.
Qed.

(** C8.  When the configuration file exists and is not valid JSON, the
    personality extractor raises the parse error after opening the file and
    before writing anything; no handler exists, so the script exits with
    status 1, no run of it dumps the personality file, and the file is left
    as it was. *)
Theorem malformed_config_is_fatal src content :
  config_file src = Some content ->
  loads content = None ->
  extract_personality src = ([OpenRead config_path], Raise JSONDecodeError) /\
  exit_status (main src) = 1%Z /\
  (forall doc, ~ In (JsonDump personality_file doc) (main src).1) /\
  (forall t,
     tree_files (run_tool src t) !! personality_file
     = tree_files t !! personality_file).
Proof.
  intros Hcfg Hbad.
  assert (Hpers : extract_personality src
                  = ([OpenRead config_path], Raise JSONDecodeError))
    by (by rewrite extract_personality_cases, Hcfg, Hbad).
  assert (Hnone : forall doc, ~ In (personality_file, doc) (dumps (main src).1)).
  { intros doc. rewrite main_dumps, Hpers. cbn [fst dumps].
    intros [H|[H|H]%in_app_or]%in_app_or.
    - by apply chunk_dumps_not_personality in H.
    - by apply conversation_dumps_not_personality in H.
    - by destruct (migrate_conversations src).2. }
  split; [done|]. split; [|split].
  - unfold exit_status. rewrite main_result, Hpers.
    by destruct (migrate_conversations src).2.
  - intros doc. rewrite <- in_dumps. apply Hnone.
  - intros t. unfold run_tool. rewrite replay_lookup, last_write_none; [done|].
    intros Hin. apply in_map_iff in Hin as ([q doc] & Hq & Hin). simpl in Hq.
    subst q. by apply Hnone in Hin.
Qed.

(** C7.  With the sessions directory present, every file the conversation
    pass opens is a file of the directory whose name ends in ".jsonl" and
    does not contain ".deleted."; when the pass returns it has opened every
    such file, in the order of the listing, and in any case it has opened
    them in that order up to the file at which it stopped; a file whose name
    contains ".deleted." is never opened. *)
Theorem only_active_sessions_are_read src listing :
  sessions_dir src = Some listing ->
  (forall p,
     In (OpenRead p) (migrate_conversations src).1 ->
     exists name lines,
       In (name, lines) listing /\
       p = path_join sessions_path name /\
       str_ends_with ".jsonl" name = true /\
       str_contains ".deleted." name = false) /\
  (forall n,
     (migrate_conversations src).2 = Ok n ->
     reads (migrate_conversations src).1 =
     map (fun f => path_join sessions_path f.1)
         (List.filter
            (fun f => str_ends_with ".jsonl" f.1
                      && negb (str_contains ".deleted." f.1))
            listing)) /\
  (exists k,
     reads (migrate_conversations src).1 =
     map (fun f => path_join sessions_path f.1)
         (take k (List.filter
                    (fun f => str_ends_with ".jsonl" f.1
                              && negb (str_contains ".deleted." f.1))
                    listing))) /\
  (forall name,
     str_contains ".deleted." name = true ->
     ~ In (OpenRead (path_join sessions_path name)) (migrate_conversations src).1).
Proof.
  intros Hdir.
  destruct (migrate_conversations_present src listing Hdir) as [line Hconv].
  assert (Hopened : forall p,
    In (OpenRead p) (migrate_conversations src).1 ->
    exists name lines,
      In (name, lines) listing /\
      p = path_join sessions_path name /\
      str_ends_with ".jsonl" name = true /\
      str_contains ".deleted." name = false).
  { intros p. rewrite Hconv. cbn [fst]. intros [Hin|Hin]; [done|].
    apply sessions_loop_trace_in in Hin as (name & lines & Hfile & [Hp|Hp]).
    - injection Hp as ->. apply filter_In in Hfile as [Hfile Hactive].
      cbn in Hactive. apply andb_prop in Hactive as [Hext Hdel].
      exists name, lines. repeat split; try done. by apply negb_true_iff.
    - by destruct Hp as (idx & doc & Hp). }
  split; [done|]. split; [|split].
  - intros n. rewrite Hconv. cbn [fst snd reads]. apply sessions_loop_reads.
  - rewrite Hconv. cbn [fst reads]. apply sessions_loop_reads_prefix.
  - intros name Hdel Hin.
    apply Hopened in Hin as (name' & lines & _ & Hp & _ & Hnot).
    apply path_join_inj in Hp. subst name'. congruence.
Qed.

(** ** Running the tool again *)

Lemma chunks_ignore_clock now src :
  migrate_code_chunks (set_clock now src) = migrate_code_chunks src.
Proof. done. Qed.

Lemma conversations_ignore_clock now src :
  migrate_conversations (set_clock now src) = migrate_conversations src.
Proof. done. Qed.

Lemma personality_dumps src :
  dumps (extract_personality src).1 =
  match config_file src with
  | Some content =>
      match loads content with
      | Some config => [(personality_file, personality (utcnow src) config)]
      | None => []
      end
  | None => []
  end.
Proof.
  rewrite extract_personality_cases.
  destruct (config_file src) as [content|]; [|done]. by destruct (loads content).
Qed.

Lemma personality_made_dirs src : made_dirs (extract_personality src).1 = [].
Proof.
  rewrite extract_personality_cases.
  destruct (config_file src) as [content|]; [|done]. by destruct (loads content).
Qed.

Lemma main_made_dirs_clock now src :
  made_dirs (main (set_clock now src)).1 = made_dirs (main src).1.
Proof.
  rewrite !main_made_dirs, !personality_made_dirs.
  by rewrite chunks_ignore_clock, conversations_ignore_clock.
Qed.

(** The dumps of the first two passes, which are all the dumps of a run
    into files other than the personality file. *)
Lemma last_write_main_other src p :
  p <> personality_file ->
  last_write p (dumps (main src).1) =
  last_write p (dumps (migrate_code_chunks src).1
                ++ dumps (migrate_conversations src).1).
Proof.
  intros Hp. rewrite main_dumps, app_assoc, last_write_app.
  replace (last_write p _) with (@None pyval); [done|].
  destruct (migrate_conversations src).2; [|done].
  rewrite personality_dumps.
  destruct (config_file src) as [content|]; [|done].
  destruct (loads content) as [config|]; [|done].
  cbn. by destruct (String.eqb_spec personality_file p).
Qed.

Lemma last_write_main_personality src :
  last_write personality_file (dumps (main src).1) =
  match (migrate_conversations src).2, config_file src with
  | Ok _, Some content =>
      match loads content with
      | Some config => Some (personality (utcnow src) config)
      | None => None
      end
  | _, _ => None
  end.
Proof.
  rewrite main_dumps, app_assoc, last_write_app.
  assert (Hbefore : last_write personality_file
            (dumps (migrate_code_chunks src).1
             ++ dumps (migrate_conversations src).1) = None).
  { apply last_write_none. rewrite map_app. intros [H|H]%in_app_or;
      apply in_map_iff in H as ([q doc] & Hq & H); simpl in Hq; subst q.
    - by apply chunk_dumps_not_personality in H.
    - by apply conversation_dumps_not_personality in H. }
  rewrite Hbefore. destruct (migrate_conversations src).2; [|done].
  rewrite personality_dumps.
  destruct (config_file src) as [content|]; [|done].
  destruct (loads content) as [config|]; [|done].
  cbn [last_write]. by rewrite String.eqb_refl.
Qed.

(** C5.  A second run over unchanged sources leaves the destination tree
    as the first run left it when the clock reads the same; when the clock
    has moved, the directories and every file other than the personality
    file are still as the first run left them (the two passes that write
    them do not consult the clock), and the personality file is either
    untouched by both runs or holds, after each run, the personality record
    of the same configuration at that run's clock reading; two such records
    agree on every field other than "migrated_at". *)
Theorem rerun_changes_only_the_timestamp src now' t :
  run_tool src (run_tool src t) = run_tool src t /\
  migrate_code_chunks (set_clock now' src) = migrate_code_chunks src /\
  migrate_conversations (set_clock now' src) = migrate_conversations src /\
  tree_dirs (run_tool (set_clock now' src) (run_tool src t))
    = tree_dirs (run_tool src t) /\
  (forall p,
     p <> personality_file ->
     tree_files (run_tool (set_clock now' src) (run_tool src t)) !! p
     = tree_files (run_tool src t) !! p) /\
  (tree_files (run_tool (set_clock now' src) (run_tool src t)) !! personality_file
     = tree_files (run_tool src t) !! personality_file \/
   exists config,
     tree_files (run_tool src t) !! personality_file
       = Some (personality (utcnow src) config) /\
     tree_files (run_tool (set_clock now' src) (run_tool src t)) !! personality_file
       = Some (personality now' config)) /\
  (forall now1 now2 config k,
     k <> "migrated_at" ->
     py_get (personality now1 config) k PNone
     = py_get (personality now2 config) k PNone).
Proof.
  split; [apply replay_idempotent|]. split; [done|]. split; [done|].
  unfold run_tool. split; [|split; [|split]].
  - rewrite !replay_dirs, main_made_dirs_clock. set_solver.
  - intros p Hp. rewrite !replay_lookup, !last_write_main_other by done.
    rewrite chunks_ignore_clock, conversations_ignore_clock.
    by destruct (last_write p _).
  - rewrite !replay_lookup, !last_write_main_personality.
    rewrite conversations_ignore_clock. cbn [config_file utcnow set_clock].
    destruct (migrate_conversations src).2 as [n|e]; [|by left].
    destruct (config_file src) as [content|]; [|by left].
    destruct (loads content) as [config|]; [|by left].
    right. by exists config.
  - intros now1 now2 config k Hk. unfold personality, py_get, dict_get.
    cbn [assoc_get].
    destruct (String.eqb_spec k "source"); [done|].
    by destruct (String.eqb_spec k "migrated_at").
Qed.

(** ** Further properties of the conversation migrator *)

Lemma bind_assoc {A B C} (m : io A) (f : A -> io B) (g : B -> io C) :
  ((m ≫= f) ≫= g) = (m ≫= fun a => f a ≫= g).
Proof.
  unfold mbind, io_bind. destruct m as [t [a|e]]; simpl; [|done].
  destruct (f a) as [t' [b|e']]; simpl; [|done]. by rewrite app_assoc.
Qed.

Lemma for_each_app {A S} (body : S -> A -> io S) l1 l2 s :
  for_each body (l1 ++ l2) s = (for_each body l1 s ≫= for_each body l2).
Proof.
  revert s. induction l1 as [|x l1 IH]; intros s.
  - cbn [app for_each]. by rewrite bind_ret.
  - cbn [app for_each]. rewrite bind_assoc.
    unfold mbind at 1 3, io_bind. destruct (body s x) as [t [s'|e]]; simpl; [|done].
    by rewrite IH.
Qed.

(** A loop all of whose iterations return, returns. *)
Lemma for_each_all_ok {A S} (body : S -> A -> io S) l s :
  (forall x s', In x l -> is_ok (body s' x).2 = true) ->
  is_ok (for_each body l s).2 = true.
Proof.
  revert s. induction l as [|x l IH]; intros s Hall; [done|].
  rewrite for_each_cons, bind_result.
  specialize (Hall x s (or_introl eq_refl)) as Hx.
  destruct (body s x).2 as [s'|e]; [|done].
  apply IH. intros y s'' Hy. apply Hall. by right.
Qed.

Lemma existsb_eq_str items k :
  existsb (fun x => eq_str x k) items = true <-> In (PStr k) items.
Proof.
  rewrite existsb_exists. split.
  - intros (x & Hin & Heq). apply eq_str_true in Heq. by subst.
  - intros Hin. exists (PStr k). split; [done|]. by apply eq_str_true.
Qed.

Lemma str_items_raises items e :
  str_items items = Raise e ->
  e = TypeError /\ exists item, In item items /\ forall s, item <> PStr s.
Proof.
  induction items as [|item items IH]; [done|].
  destruct item as [|b|n|x|s|l|d]; simpl;
    try (intros [= <-]; split; [done|]; eexists; split; [by left|done]).
  destruct (str_items items) as [l|e'] eqn:Hrest; [done|].
  intros [= <-]. destruct (IH eq_refl) as (He & item & Hin & Hnot).
  split; [done|]. exists item. split; [by right | done].
Qed.

Lemma str_items_ok items :
  (forall item, In item items -> exists s, item = PStr s) ->
  exists l, str_items items = Ok l.
Proof.
  induction items as [|item items IH]; intros Hall; [by eexists|].
  destruct (Hall item (or_introl eq_refl)) as [s ->]. simpl.
  destruct IH as [l ->]; [|by eexists]. intros i Hi. apply Hall. by right.
Qed.

(** X4. Text extraction fails only on the join, with TypeError, and exactly
    when the content is a list with a part of type "text" whose "text" value
    is not a string. *)
Theorem extract_text_raises_iff content e :
  extract_text content = Raise e <->
  e = TypeError /\
  exists parts part,
    content = PList parts /\ In part parts /\
    is_text_part part = true /\ forall s, part_text part <> PStr s.
Proof.
  split.
  - destruct content as [|b|n|x|s|parts|d]; try done.
    unfold extract_text, py_join.
    destruct (str_items _) as [l|e'] eqn:Hitems; [done|]. intros [= <-].
    apply str_items_raises in Hitems as (He & item & Hin & Hnot).
    split; [done|]. apply in_map_iff in Hin as (part & <- & Hin).
    apply filter_In in Hin as [Hin Htext]. by exists parts, part.
  - intros (-> & parts & part & -> & Hin & Htext & Hnot).
    unfold extract_text, py_join.
    destruct (str_items _) as [l|e'] eqn:Hitems.
    + exfalso. revert l Hitems.
      assert (Hmem : In (part_text part)
                (map part_text (List.filter is_text_part parts))).
      { apply in_map. apply filter_In. by split. }
      induction (map part_text (List.filter is_text_part parts)) as [|i items IH];
        [done|]. intros l. simpl.
      destruct Hmem as [->|Hmem].
      * destruct (part_text part); try done. by destruct (Hnot s).
      * destruct i; try done. destruct (str_items items); [|done].
        intros _. by eapply IH.
    + by apply str_items_raises in Hitems as [-> _].
Qed.


(** The values of a "message" key on which the body of the loop raises:
    a scalar (the membership test needs an iterable), a string or a list
    that passes both membership tests (it has no [get]), and an object with
    both keys whose text cannot be extracted. *)
Definition raising_inner (inner : pyval) : Prop :=
  match inner with
  | PNone | PBool _ | PInt _ | PFloat _ => True
  | PStr s => str_contains "role" s = true /\ str_contains "content" s = true
  | PList items => In (PStr "role") items /\ In (PStr "content") items
  | PDict entries =>
      (exists role, assoc_get "role" entries = Some role) /\
      exists content e,
        assoc_get "content" entries = Some content /\
        extract_text content = Raise e
  end.

(** The parsed lines on which the body of the loop raises: any value that
    is not an object, and an object of type "message" whose "message" value
    is as above. *)
Definition raising_value (v : pyval) : Prop :=
  match v with
  | PDict msg =>
      assoc_get "type" msg = Some (PStr "message") /\
      exists inner, assoc_get "message" msg = Some inner /\ raising_inner inner
  | _ => True
  end.

(** The body of the loop from line 134 on, for a line that passed the test
    of line 131. *)
Lemma migrate_line_message session_id total idx line msg inner_msg :
  loads line = Some (PDict msg) ->
  assoc_get "type" msg = Some (PStr "message") ->
  assoc_get "message" msg = Some inner_msg ->
  migrate_line session_id total (idx, line) =
  (has_role ← lift (py_in "role" inner_msg);
   if negb has_role then mret total else
   has_content ← lift (py_in "content" inner_msg);
   if negb has_content then mret total else
   content_parts ← lift (py_get inner_msg "content" (PList []));
   text_content ← lift (extract_text content_parts);
   role ← lift (py_get inner_msg "role" PNone);
   json_dump (event_file session_id idx)
     (conversation_event role text_content
        (dict_get msg "timestamp" (PStr "unknown")) session_id idx);;
   mret (S total)).
Proof.
  intros Hline Hty Hmsg. unfold migrate_line. rewrite Hline.
  apply dict_get_message, eq_str_true in Hty.
  io_step. rewrite Hty, Hmsg. io_step. do 5 (f_equal; try done).
Qed.

(** The lines that are skipped before line 134: not JSON, an object whose
    type is not "message", an object without a "message" key. *)
Lemma migrate_line_filtered session_id total idx line :
  loads line = None \/
  (exists msg, loads line = Some (PDict msg) /\
     (assoc_get "type" msg <> Some (PStr "message") \/
      assoc_get "message" msg = None)) ->
  migrate_line session_id total (idx, line) = ([], Ok total).
Proof.
  intros [Hline|(msg & Hline & Hskip)]; unfold migrate_line; rewrite Hline;
    [done|].
  io_step.
  destruct (eq_str (dict_get msg "type" PNone) "message") eqn:Hty; [|done].
  apply eq_str_true, dict_get_message in Hty. destruct Hskip as [Hne|Hnone];
    [done|]. rewrite Hnone. by io_step.
Qed.

(** The body of the loop over the lines raises exactly on the lines that
    parse to a raising value. *)
Lemma line_raises_shape session_id total idx line :
  is_ok (migrate_line session_id total (idx, line)).2 = false <->
  exists v, loads line = Some v /\ raising_value v.
Proof.
  destruct (loads line) as [v|] eqn:Hline.
  2:{ rewrite migrate_line_filtered by (by left).
      split; [done | by intros (v & ? & _)]. }
  destruct v as [|b|n|x|s|items|msg];
    try (split; [intros _; by eexists | intros _; unfold migrate_line;
                                        by rewrite Hline]).
  assert (Htype : assoc_get "type" msg = Some (PStr "message") \/
                  assoc_get "type" msg <> Some (PStr "message")).
  { destruct (eq_str (dict_get msg "type" PNone) "message") eqn:Hty.
    - left. by apply dict_get_message, eq_str_true.
    - right. intros H. apply dict_get_message, eq_str_true in H. congruence. }
  destruct Htype as [Hty|Hty].
  2:{ rewrite migrate_line_filtered by (right; exists msg; split; [done | by left]).
      split; [done | by intros (v & [= <-] & ? & _)]. }
  destruct (assoc_get "message" msg) as [inner|] eqn:Hmsg.
  2:{ rewrite migrate_line_filtered by (right; exists msg; split; [done | by right]).
      split; [done|]. intros (v & [= <-] & _ & inner & Hinner & _).
      cbn in Hinner. congruence. }
  rewrite (migrate_line_message _ _ _ _ _ _ Hline Hty Hmsg).
  assert (Hred : (exists v, Some (PDict msg) = Some v /\ raising_value v)
                 <-> raising_inner inner).
  { split.
    - intros (v & [= <-] & _ & inner' & Hinner & Hraise). cbn in Hinner.
      congruence.
    - intros Hraise. exists (PDict msg). split; [done|]. split; [done|].
      by exists inner. }
  rewrite Hred. clear Hred.
  destruct inner as [|b|n|x|s|items|inner]; io_step; try done.
  - cbn [raising_inner].
    destruct (str_contains "role" s), (str_contains "content" s); cbn;
      naive_solver.
  - cbn [raising_inner]. rewrite <- !existsb_eq_str.
    destruct (existsb _ items), (existsb _ items); cbn; naive_solver.
  - cbn [raising_inner].
    destruct (assoc_get "role" inner) as [role|] eqn:Hrole; cbn [negb].
    2:{ split; [done | by intros [[? ?] _]]. }
    destruct (assoc_get "content" inner) as [content|] eqn:Hcontent; cbn [negb].
    2:{ split; [done | by intros [_ (? & ? & ? & _)]]. }
    rewrite (dict_get_some _ _ _ (PList []) Hcontent).
    destruct (extract_text content) as [text_content|e] eqn:Htext; io_step.
    + rewrite (dict_get_some _ _ _ PNone Hrole). unfold json_dump. io_step.
      split; [done|]. intros [_ (c & e & [= <-] & He)]. congruence.
    + split; [|done]. intros _. split; [by eexists|]. by exists content, e.
Qed.



Lemma for_each_raises_in {A S} (body : S -> A -> io S) l s :
  is_ok (for_each body l s).2 = false ->
  exists x s', In x l /\ is_ok (body s' x).2 = false.
Proof.
  revert s. induction l as [|x l IH]; intros s; [done|].
  rewrite for_each_cons, bind_result.
  destruct (body s x).2 as [s1|e] eqn:Hx.
  - intros H. destruct (IH _ H) as (y & s' & Hy & Hraise).
    exists y, s'. split; [by right | done].
  - intros _. exists x, s. split; [by left|]. by rewrite Hx.
Qed.

(** With the sessions directory present, the conversation pass raises
    exactly when some line of some file it selects parses to a raising
    value. *)
Lemma conversations_raise_shape src listing :
  sessions_dir src = Some listing ->
  (is_ok (migrate_conversations src).2 = false <->
   exists name lines line v,
     In (name, lines) listing /\ active_session name = true /\
     In line lines /\ loads line = Some v /\ raising_value v).
Proof.
  intros Hdir. split.
  - destruct (migrate_conversations_present src listing Hdir) as [out ->].
    cbn [snd]. intros Hraise.
    apply for_each_raises_in in Hraise as ([name lines] & total & Hfile & Hraise).
    apply filter_In in Hfile as [Hfile Hactive].
    rewrite migrate_session_unfold in Hraise. cbn [snd] in Hraise.
    apply for_each_raises_in in Hraise as ([idx line] & total' & Hline & Hraise).
    apply in_enumerate, list_elem_of_lookup_2, list_elem_of_In in Hline.
    apply line_raises_shape in Hraise as (v & Hv & Hshape).
    by exists name, lines, line, v.
  - intros (name & lines & line & v & Hfile & Hactive & Hline & Hv & Hshape).
    apply (raising_line_aborts src listing name lines line); try done.
    intros session_id total idx. apply line_raises_shape. by exists v.
Qed.

(** X2. The script exits with status 0 only if no line of a selected
    session file (a name ending in ".jsonl" without ".deleted.") parses to a
    value on which the loop body raises, and the configuration file, if
    present, parses. *)
Theorem exit_status_zero_requires src :
  exit_status (main src) = 0%Z ->
  (forall listing name lines line v,
     sessions_dir src = Some listing ->
     In (name, lines) listing -> active_session name = true ->
     In line lines -> loads line = Some v -> ~ raising_value v) /\
  (forall content,
     config_file src = Some content -> exists config, loads content = Some config).
Proof.
  unfold exit_status. rewrite main_result, extract_personality_cases.
  intros Hexit. split.
  - intros listing name lines line v Hdir Hfile Hactive Hline Hv Hshape.
    assert (Hraise : is_ok (migrate_conversations src).2 = false).
    { apply (conversations_raise_shape src listing Hdir).
      by exists name, lines, line, v. }
    by destruct (migrate_conversations src).2.
  - intros content Hcfg. destruct (migrate_conversations src).2 as [n|e]; [|done].
    rewrite Hcfg in Hexit.
    destruct (loads content) as [config|]; [by exists config | done].
Qed.

Lemma for_each_counts {A} (body : nat -> A -> io nat) l s :
  (forall s' x,
     match (body s' x).2 with
     | Ok n => n = (s' + length (dumps (body s' x).1))%nat
     | Raise _ => True
     end) ->
  match (for_each body l s).2 with
  | Ok n => n = (s + length (dumps (for_each body l s).1))%nat
  | Raise _ => True
  end.
Proof.
  intros Hbody. revert s. induction l as [|x l IH]; intros s.
  - simpl. lia.
  - rewrite for_each_cons, bind_result, bind_trace.
    specialize (Hbody s x). destruct (body s x).2 as [s1|e]; [|done].
    specialize (IH s1). destruct (for_each body l s1).2 as [n|e]; [|done].
    rewrite dumps_app, length_app. lia.
Qed.

Lemma migrate_line_counts session_id total numbered :
  match (migrate_line session_id total numbered).2 with
  | Ok n => n = (total + length (dumps (migrate_line session_id total numbered).1))%nat
  | Raise _ => True
  end.
Proof.
  destruct numbered as [idx line].
  destruct (migrate_line_cases session_id total idx line)
    as [H|[[e H]|(msg & inner & role & content & text_content & H)]].
  - rewrite H. simpl. lia.
  - by rewrite H.
  - destruct H as (_ & _ & _ & _ & _ & _ & H). rewrite H. simpl. lia.
Qed.

Lemma migrate_session_counts total file :
  match (migrate_session total file).2 with
  | Ok n => n = (total + length (dumps (migrate_session total file).1))%nat
  | Raise _ => True
  end.
Proof.
  destruct file as [name lines]. rewrite migrate_session_unfold. cbn [fst snd dumps].
  apply for_each_counts. intros s' x. apply migrate_line_counts.
Qed.

(** ** Strings: membership, suffixes and stems *)

Lemma str_app_nil (b : string) : "" +:+ b = b.
Proof. done. Qed.

Lemma str_app_cons (c : ascii) (a b : string) :
  String c a +:+ b = String c (a +:+ b).
Proof. done. Qed.

Lemma str_length_app (a b : string) :
  String.length (a +:+ b) = (String.length a + String.length b)%nat.
Proof.
  induction a as [|c a IH]; [done|]. rewrite str_app_cons. simpl. by rewrite IH.
Qed.

Lemma append_inj_r (a b s : string) : a +:+ s = b +:+ s -> a = b.
Proof.
  revert b. induction a as [|c a IH]; intros [|c' b] H.
  - done.
  - apply (f_equal String.length) in H.
    rewrite !str_length_app in H. simpl in H. lia.
  - apply (f_equal String.length) in H.
    rewrite !str_length_app in H. simpl in H. lia.
  - rewrite !str_app_cons in H. injection H as -> H. f_equal. by apply IH.
Qed.

Lemma substring_all (s : string) : String.substring 0 (String.length s) s = s.
Proof. induction s as [|c s IH]; simpl; [done | by rewrite IH]. Qed.

Lemma substring_prefix (a b : string) :
  String.substring 0 (String.length a) (a +:+ b) = a.
Proof.
  induction a as [|c a IH]; [by destruct b|].
  rewrite str_app_cons. simpl. by rewrite IH.
Qed.

Lemma substring_suffix (a b : string) :
  String.substring (String.length a) (String.length b) (a +:+ b) = b.
Proof.
  induction a as [|c a IH]; [apply substring_all|]. by rewrite str_app_cons.
Qed.

Lemma substring_take_drop (s : string) (n : nat) :
  s = String.substring 0 n s
      +:+ String.substring n (String.length s - n) s.
Proof.
  revert n. induction s as [|c s IH]; intros [|n]; simpl; try done.
  - by rewrite str_app_nil, substring_all.
  - rewrite str_app_cons. f_equal. apply IH.
Qed.

Lemma prefix_iff (a b : string) :
  String.prefix a b = true <-> exists post, b = a +:+ post.
Proof.
  rewrite String.prefix_correct. split.
  - intros H. eexists. rewrite <- H at 1. apply substring_take_drop.
  - intros [post ->]. apply substring_prefix.
Qed.

(** [str_contains] is the substring test. *)
Lemma str_contains_iff (needle hay : string) :
  str_contains needle hay = true <->
  exists pre post, hay = pre +:+ needle +:+ post.
Proof.
  induction hay as [|c hay IH]; cbn [str_contains].
  - rewrite orb_false_r, prefix_iff. split.
    + intros [post H]. by exists "", post.
    + intros (pre & post & H). destruct pre; [by exists post|done].
  - rewrite orb_true_iff, prefix_iff, IH. split.
    + intros [[post H]|(pre & post & H)].
      * by exists "", post.
      * exists (String c pre), post. rewrite str_app_cons. by rewrite H.
    + intros (pre & post & H). destruct pre as [|c' pre].
      * left. by exists post.
      * right. rewrite str_app_cons in H. injection H as -> H. by exists pre, post.
Qed.

(** [str_ends_with] is the suffix test. *)
Lemma str_ends_with_iff (suffix s : string) :
  str_ends_with suffix s = true <-> exists pre, s = pre +:+ suffix.
Proof.
  unfold str_ends_with. rewrite andb_true_iff, Nat.leb_le, String.eqb_eq. split.
  - intros [Hle Hsub].
    exists (String.substring 0 (String.length s - String.length suffix) s).
    pose proof (substring_take_drop s (String.length s - String.length suffix))
      as Hsplit.
    replace (String.length s - (String.length s - String.length suffix))%nat
      with (String.length suffix) in Hsplit by lia.
    by rewrite Hsub in Hsplit.
  - intros [pre ->]. rewrite str_length_app. split; [lia|].
    replace (String.length pre + String.length suffix - String.length suffix)%nat
      with (String.length pre) by lia.
    apply substring_suffix.
Qed.

Lemma str_rfind_jsonl (s : string) :
  str_rfind "."%char (s +:+ ".jsonl") = Some (String.length s).
Proof.
  induction s as [|c s IH]; [done|]. rewrite str_app_cons. simpl. by rewrite IH.
Qed.


Lemma active_session_shape name :
  active_session name = true -> exists pre, name = pre +:+ ".jsonl".
Proof.
  unfold active_session. intros [Hext _]%andb_true_iff.
  by apply str_ends_with_iff.
Qed.

(** X5. A file of the sessions directory is selected exactly when its name
    is some text followed by ".jsonl" and ".deleted." occurs nowhere in
    it. *)
Theorem active_session_iff name :
  active_session name = true <->
  (exists pre, name = pre +:+ ".jsonl") /\
  ~ (exists pre post, name = pre +:+ ".deleted." +:+ post).
Proof.
  unfold active_session.
  rewrite andb_true_iff, negb_true_iff, str_ends_with_iff.
  rewrite <- not_true_iff_false, str_contains_iff. done.
Qed.

Lemma stem_jsonl (s : string) : s <> "" -> stem (s +:+ ".jsonl") = s.
Proof.
  intros Hne. unfold stem. rewrite str_rfind_jsonl, str_length_app.
  assert (Hlen : (0 < String.length s)%nat) by (destruct s; [done | simpl; lia]).
  destruct (_ && _) eqn:Hcond; [apply substring_prefix|].
  apply andb_false_iff in Hcond as [Hc|Hc]; apply Nat.ltb_ge in Hc;
    simpl in Hc; lia.
Qed.

(** X6. The session identifier of a selected file is its name without the
    extension ".jsonl", except that the file named just ".jsonl" keeps its
    whole name; so two selected files other than ".jsonl" with the same
    session identifier are the same file, while ".jsonl" and ".jsonl.jsonl"
    share the identifier ".jsonl". *)
Theorem session_id_of_selected_file :
  (forall name,
     active_session name = true -> name <> ".jsonl" ->
     name = stem name +:+ ".jsonl") /\
  (forall name name',
     active_session name = true -> active_session name' = true ->
     name <> ".jsonl" -> name' <> ".jsonl" ->
     stem name = stem name' -> name = name') /\
  stem ".jsonl" = ".jsonl" /\
  stem ".jsonl.jsonl" = ".jsonl".
Proof.
  assert (Hstem : forall name,
     active_session name = true -> name <> ".jsonl" ->
     name = stem name +:+ ".jsonl").
  { intros name Hactive Hne. apply active_session_shape in Hactive as [pre ->].
    rewrite stem_jsonl; [done|]. by intros ->. }
  split; [done|]. split; [|done].
  intros name name' Ha Ha' Hne Hne' Heq.
  rewrite (Hstem name Ha Hne), (Hstem name' Ha' Hne'). by rewrite Heq.
Qed.


(** ** Event files do not collide *)

Fixpoint str_mem (c : ascii) (s : string) : bool :=
  match s with
  | EmptyString => false
  | String a rest => Ascii.eqb a c || str_mem c rest
  end.

Lemma str_mem_app c (a b : string) :
  str_mem c (a +:+ b) = str_mem c a || str_mem c b.
Proof.
  induction a as [|x a IH]; [done|]. rewrite str_app_cons. simpl.
  by rewrite IH, orb_assoc.
Qed.

Lemma pretty_N_go_no_underscore x s :
  str_mem "_" s = false -> str_mem "_" (pretty_N_go x s) = false.
Proof.
  revert s. induction (N.lt_wf_0 x) as [x _ IH]; intros s Hs.
  assert (x = 0 \/ 0 < x)%N as [->|Hpos] by lia.
  - by rewrite pretty_N_go_0.
  - rewrite pretty_N_go_step by done. apply IH; [by apply N.div_lt|].
    simpl. rewrite Hs. unfold pretty_N_char. by repeat case_match.
Qed.

(** The decimal text of a number has no underscore. *)
Lemma pretty_nat_no_underscore (n : nat) : str_mem "_" (pretty n) = false.
Proof.
  unfold pretty, pretty_nat, pretty, pretty_N. case_decide; [done|].
  by apply pretty_N_go_no_underscore.
Qed.

(** A text is split in one way only at its last underscore. *)
Lemma split_at_last_underscore (s s' d d' : string) :
  str_mem "_" d = false -> str_mem "_" d' = false ->
  s +:+ "_" +:+ d = s' +:+ "_" +:+ d' -> s = s' /\ d = d'.
Proof.
  intros Hd Hd'. revert s'. induction s as [|c s IH]; intros [|c' s'] H;
    repeat (rewrite str_app_nil in H || rewrite str_app_cons in H).
  - by injection H as ->.
  - injection H as <- ->.
    rewrite str_mem_app in Hd. simpl in Hd. by rewrite orb_true_r in Hd.
  - injection H as -> <-.
    rewrite str_mem_app in Hd'. simpl in Hd'. by rewrite orb_true_r in Hd'.
  - injection H as -> H. destruct (IH s') as [-> ->]; [|done].
    by repeat (rewrite str_app_nil || rewrite str_app_cons).
Qed.

(** The name of an event file determines the session identifier and the
    line index. *)
Lemma event_file_inj session_id session_id' idx idx' :
  event_file session_id idx = event_file session_id' idx' ->
  session_id = session_id' /\ idx = idx'.
Proof.
  unfold event_file. intros H. apply path_join_inj, append_inj_l in H.
  apply split_at_last_underscore in H as [-> H].
  - split; [done|]. apply append_inj_r in H. by apply pretty_nat_inj in H.
  - rewrite str_mem_app, pretty_nat_no_underscore. done.
  - rewrite str_mem_app, pretty_nat_no_underscore. done.
Qed.

Lemma last_write_functional p doc ds :
  In (p, doc) ds ->
  (forall doc', In (p, doc') ds -> doc' = doc) ->
  last_write p ds = Some doc.
Proof.
  induction ds as [|[q d] ds IH]; [done|]. intros Hin Hfun. cbn [last_write].
  destruct (last_write p ds) as [d'|] eqn:Hlast.
  - f_equal. apply Hfun. right.
    clear -Hlast. induction ds as [|[q' d''] ds IH]; [done|].
    cbn [last_write] in Hlast. destruct (last_write p ds) as [x|].
    + injection Hlast as ->. right. by apply IH.
    + destruct (String.eqb_spec q' p) as [->|_]; [|done].
      injection Hlast as ->. by left.
  - destruct Hin as [[= -> ->]|Hin].
    + by rewrite String.eqb_refl.
    + destruct (String.eqb_spec q p) as [->|Hne].
      * f_equal. apply Hfun. by left.
      * exfalso. clear -Hlast Hin. induction ds as [|[q' d''] ds IH]; [done|].
        cbn [last_write] in Hlast. destruct (last_write p ds) as [x|]; [done|].
        destruct (String.eqb_spec q' p) as [->|Hne]; [done|].
        destruct Hin as [[= ? _]|Hin]; [done | by apply IH].
Qed.


(** Every dump of the loop over the session files is the event of a
    qualifying line of one of them. *)
Lemma sessions_loop_dump_in sessions total p doc :
  In (JsonDump p doc) (for_each migrate_session sessions total).1 ->
  exists name lines idx line msg inner role content text_content,
    In (name, lines) sessions /\
    lines !! idx = Some line /\
    loads line = Some (PDict msg) /\
    assoc_get "type" msg = Some (PStr "message") /\
    assoc_get "message" msg = Some (PDict inner) /\
    assoc_get "role" inner = Some role /\
    assoc_get "content" inner = Some content /\
    extract_text content = Ok text_content /\
    p = event_file (stem name) idx /\
    doc = conversation_event role text_content
            (dict_get msg "timestamp" (PStr "unknown")) (stem name) idx.
Proof.
  intros Ha. apply for_each_trace_in in Ha as ([name lines] & total' & Hin & Ha).
  rewrite migrate_session_unfold in Ha. destruct Ha as [Ha|Ha]; [done|].
  apply session_lines_trace_in in Ha
    as (idx & line & msg & inner & role & content & text_content & H).
  destruct H as (Hl & Hline & Hty & Hmsg & Hrole & Hcontent & Htext & [= -> ->]).
  by exists name, lines, idx, line, msg, inner, role, content, text_content.
Qed.

Lemma nodup_map_inj {A B} (f : A -> B) (l : list A) x y :
  NoDup (map f l) -> In x l -> In y l -> f x = f y -> x = y.
Proof.
  induction l as [|a l IH]; [done|]. cbn [map].
  intros [Ha Hnd]%NoDup_cons [->|Hx] [->|Hy] Heq; try done.
  - exfalso. apply Ha. rewrite Heq. apply list_elem_of_In. by apply in_map.
  - exfalso. apply Ha. rewrite <- Heq. apply list_elem_of_In. by apply in_map.
  - by apply IH.
Qed.

(** X7. When the conversation pass returns and the selected files have
    distinct session identifiers, no event file is written twice with
    different content: after the pass, the file named after a qualifying
    line holds the event of that very line, with its role, its extracted
    text and its session identifier. *)
Theorem event_files_after_pass src listing n name lines idx line msg inner
    role content t :
  sessions_dir src = Some listing ->
  NoDup (map (fun f => stem f.1)
             (List.filter (fun f => active_session f.1) listing)) ->
  (migrate_conversations src).2 = Ok n ->
  In (name, lines) listing ->
  active_session name = true ->
  lines !! idx = Some line ->
  loads line = Some (PDict msg) ->
  assoc_get "type" msg = Some (PStr "message") ->
  assoc_get "message" msg = Some (PDict inner) ->
  assoc_get "role" inner = Some role ->
  assoc_get "content" inner = Some content ->
  exists text_content,
    extract_text content = Ok text_content /\
    tree_files (replay t (migrate_conversations src).1)
      !! event_file (stem name) idx
    = Some (PDict [
        ("type", PStr "conversation");
        ("role", role);
        ("content", PStr text_content);
        ("timestamp", dict_get msg "timestamp" (PStr "unknown"));
        ("session", PStr (stem name));
        ("message_index", PInt (Z.of_nat idx));
        ("migrated_from", PStr "openclaw")]).
Proof.
  intros Hdir Hnodup Hok Hfile Hactive Hl Hline Hty Hmsg Hrole Hcontent.
  destruct (migrate_conversations_present src listing Hdir) as [out Hconv].
  rewrite Hconv in Hok |- *. cbn [fst snd] in *.
  set (sessions := List.filter (fun f => active_session f.1) listing) in *.
  assert (Hsel : In (name, lines) sessions) by (apply filter_In; by split).
  destruct (for_each_ok_in _ _ _ _ _ Hok Hsel) as (total & total' & Hsess & Hsub).
  rewrite migrate_session_unfold in Hsess, Hsub. cbn [fst snd] in Hsess, Hsub.
  apply in_enumerate in Hl as Hnum.
  destruct (for_each_ok_in _ _ _ _ _ Hsess Hnum) as (k & k' & Hbody & Hsub').
  rewrite (migrate_line_qualifying _ _ _ _ _ _ _ _ Hline Hty Hmsg Hrole Hcontent)
    in Hbody, Hsub'.
  destruct (extract_text content) as [text_content|e] eqn:Htext; [|done].
  exists text_content. split; [done|].
  rewrite replay_lookup. cbn [dumps].
  rewrite (last_write_functional (event_file (stem name) idx)
             (conversation_event role text_content
                (dict_get msg "timestamp" (PStr "unknown")) (stem name) idx));
    [done| |].
  - apply in_dumps. apply Hsub. right. apply Hsub'. by left.
  - intros doc' Hin. apply in_dumps in Hin.
    apply sessions_loop_dump_in in Hin
      as (name' & lines' & idx' & line' & msg' & inner' & role' & content'
          & text' & Hsel' & Hl' & Hline' & _ & Hmsg' & Hrole' & Hcontent'
          & Htext' & Hp & ->).
    apply event_file_inj in Hp as [Hstem <-].
    assert (Hsame : (name', lines') = (name, lines)).
    { apply (nodup_map_inj (fun f => stem f.1) sessions); try done. }
    injection Hsame as -> ->.
    assert (line' = line) as -> by congruence.
    assert (msg' = msg) as -> by congruence.
    assert (inner' = inner) as -> by congruence.
    assert (role' = role) as -> by congruence.
    assert (content' = content) as -> by congruence.
    assert (text' = text_content) as -> by congruence.
    done.
Qed.


(** ** Further properties of the script *)

Lemma main_reads src :
  reads (main src).1 =
  reads (migrate_code_chunks src).1 ++
  reads (migrate_conversations src).1 ++
  match (migrate_conversations src).2 with
  | Ok _ => reads (extract_personality src).1
  | Raise _ => []
  end.
Proof.
  unfold main, print, mkdir. skip_prints.
  rewrite bind_trace, reads_app. f_equal.
  destruct (migrate_code_chunks_ok src) as [n ->].
  skip_prints. rewrite bind_trace, reads_app. f_equal.
  destruct (migrate_conversations src).2 as [m|e]; [|done].
  skip_prints. rewrite bind_trace, reads_app.
  destruct (extract_personality src).2 as [[]|e]; [|by rewrite app_nil_r].
  skip_prints. by rewrite app_nil_r.
Qed.

Lemma chunk_reads src :
  reads (migrate_code_chunks src).1 =
  match database src with Some _ => [db_path] | None => [] end.
Proof.
  destruct (database src) as [rows|] eqn:Hdb.
  - unfold migrate_code_chunks. rewrite Hdb. unfold open_read, print.
    rewrite !bind_perform, migrate_chunks_loop. cbn [fst reads]. f_equal.
    induction (List.filter has_embedding rows) as [|r l IH]; [done | apply IH].
  - by rewrite (migrate_code_chunks_absent src Hdb).
Qed.

Lemma personality_reads src :
  reads (extract_personality src).1 =
  match config_file src with Some _ => [config_path] | None => [] end.
Proof.
  rewrite extract_personality_cases.
  destruct (config_file src) as [content|]; [|done]. by destruct (loads content).
Qed.

Lemma conversation_trace_in src a :
  In a (migrate_conversations src).1 ->
  (exists out, a = Stdout out) \/
  exists listing name lines,
    sessions_dir src = Some listing /\ In (name, lines) listing /\
    active_session name = true /\
    (a = OpenRead (path_join sessions_path name) \/
     exists idx doc, a = JsonDump (event_file (stem name) idx) doc).
Proof.
  destruct (sessions_dir src) as [listing|] eqn:Hdir.
  - destruct (migrate_conversations_present src listing Hdir) as [out ->].
    cbn [fst]. intros [<-|Hin]; [left; by eexists|].
    apply sessions_loop_trace_in in Hin as (name & lines & Hfile & Ha).
    apply filter_In in Hfile as [Hfile Hactive].
    right. by exists listing, name, lines.
  - rewrite (migrate_conversations_absent src Hdir). intros [<-|[]].
    left. by eexists.
Qed.

(** X8. What a run touches.  It creates the vector, events and graph
    directories, whatever happens afterwards.  It opens for reading only
    the database, selected session files and the configuration file.  Every
    file it opens for writing is named, relative to the vector directory,
    by the identifier of a row with an embedding followed by ".json", or is
    the event file of a line of a selected session file, or the personality
    file.  An identifier without "/" gives a name without "/": a direct
    entry of the vector directory; one with "/" can name a file anywhere.
    The run removes nothing: a directory or file of the tree before the run
    is still there after it. *)
Theorem run_footprint src t :
  (vector_dir ∈ tree_dirs (run_tool src t) /\
   events_dir ∈ tree_dirs (run_tool src t) /\
   graph_dir ∈ tree_dirs (run_tool src t)) /\
  (forall p,
     In (OpenRead p) (main src).1 ->
     p = db_path \/ p = config_path \/
     exists listing name lines,
       sessions_dir src = Some listing /\ In (name, lines) listing /\
       active_session name = true /\ p = path_join sessions_path name) /\
  (forall p doc,
     In (JsonDump p doc) (main src).1 ->
     (exists rows row,
        database src = Some rows /\ In row rows /\
        has_embedding row = true /\ p = chunk_file row) \/
     (exists listing name lines idx,
        sessions_dir src = Some listing /\ In (name, lines) listing /\
        active_session name = true /\ p = event_file (stem name) idx) \/
     p = personality_file) /\
  (forall row,
     str_mem "/" (py_str (chunk_id row)) = false ->
     exists name,
       chunk_file row = path_join vector_dir name /\ str_mem "/" name = false) /\
  (forall d, d ∈ tree_dirs t -> d ∈ tree_dirs (run_tool src t)) /\
  (forall p, is_Some (tree_files t !! p) ->
             is_Some (tree_files (run_tool src t) !! p)).
Proof.
  assert (Hwrites : forall p doc,
     In (JsonDump p doc) (main src).1 ->
     (exists rows row,
        database src = Some rows /\ In row rows /\
        has_embedding row = true /\ p = chunk_file row) \/
     (exists listing name lines idx,
        sessions_dir src = Some listing /\ In (name, lines) listing /\
        active_session name = true /\ p = event_file (stem name) idx) \/
     p = personality_file).
  { intros p doc Hin. apply in_dumps in Hin. rewrite main_dumps in Hin.
    apply in_app_or in Hin as [Hin|Hin]; [|apply in_app_or in Hin as [Hin|Hin]].
    - left. destruct (database src) as [rows|] eqn:Hdb.
      + destruct (migrate_code_chunks_present src rows Hdb) as [_ Hd].
        rewrite Hd in Hin. apply in_map_iff in Hin as (row & [= <- _] & Hrow).
        apply filter_In in Hrow as [Hrow Hhas]. by exists rows, row.
      + by rewrite (migrate_code_chunks_absent src Hdb) in Hin.
    - right; left. apply in_dumps, conversation_trace_in in Hin
        as [[out Hout]|(listing & name & lines & Hdir & Hfile & Hactive & Ha)];
        [done|].
      destruct Ha as [Ha|(idx & doc' & [= -> _])]; [done|].
      by exists listing, name, lines, idx.
    - right; right. destruct (migrate_conversations src).2; [|done].
      rewrite personality_dumps in Hin.
      destruct (config_file src) as [content|]; [|done].
      destruct (loads content); [|done]. by destruct Hin as [[= <- _]|[]]. }
  split; [|split; [|split; [done|split; [|split]]]].
  - unfold run_tool. rewrite replay_dirs, main_made_dirs. cbn [app list_to_set].
    set_solver.
  - intros p Hin. apply in_reads in Hin. rewrite main_reads in Hin.
    apply in_app_or in Hin as [Hin|Hin]; [|apply in_app_or in Hin as [Hin|Hin]].
    + left. rewrite chunk_reads in Hin. destruct (database src); [|done].
      by destruct Hin as [<-|[]].
    + right; right. apply in_reads, conversation_trace_in in Hin
        as [[out Hout]|(listing & name & lines & Hdir & Hfile & Hactive & Ha)];
        [done|].
      destruct Ha as [[= ->]|(idx & doc' & Ha)]; [|done].
      by exists listing, name, lines.
    + right; left. destruct (migrate_conversations src).2; [|done].
      rewrite personality_reads in Hin. destruct (config_file src); [|done].
      by destruct Hin as [<-|[]].
  - intros row Hid. exists (py_str (chunk_id row) +:+ ".json").
    split; [done|]. by rewrite str_mem_app, Hid.
  - intros d Hd. unfold run_tool. rewrite replay_dirs. set_solver.
  - intros p Hsome. unfold run_tool. rewrite replay_lookup.
    by destruct (last_write p (dumps (main src).1)).
Qed.


Lemma in_bind_left {A B} (m : io A) (f : A -> io B) a :
  In a m.1 -> In a (m ≫= f).1.
Proof. intros Hin. rewrite bind_trace. apply in_or_app. by left. Qed.

Lemma in_bind_right {A B} (m : io A) (f : A -> io B) x a :
  m.2 = Ok x -> In a (f x).1 -> In a (m ≫= f).1.
Proof.
  intros Hx Hin. rewrite bind_trace, Hx. apply in_or_app. by right.
Qed.

(** Steps over a print or a directory creation of the script. *)
Ltac past_action := apply (in_bind_right _ _ tt); [done|].

(** X9. When the script exits with status 0 its summary reports the two
    counts the passes returned, and it reports the personality
    configuration as extracted whether or not there was one: with the
    configuration file missing, the report is printed after the warning and
    no personality file is written. *)
Theorem summary_after_success src :
  exit_status (main src) = 0%Z ->
  (exists chunks messages,
     (migrate_code_chunks src).2 = Ok chunks /\
     (migrate_conversations src).2 = Ok messages /\
     In (Stdout ("✅ Migrated " +:+ pretty chunks +:+ " code chunks"))
        (main src).1 /\
     In (Stdout ("✅ Migrated " +:+ pretty messages +:+ " conversation messages"))
        (main src).1 /\
     In (Stdout "✅ Extracted personality config") (main src).1) /\
  (config_file src = None ->
   In (Stdout "   ⚠️  No config found") (main src).1 /\
   forall doc, ~ In (JsonDump personality_file doc) (main src).1).
Proof.
  unfold exit_status. rewrite main_result.
  destruct (migrate_code_chunks_ok src) as [chunks Hchunks].
  destruct (migrate_conversations src).2 as [messages|e] eqn:Hconv; [|done].
  destruct (extract_personality src).2 as [[]|e] eqn:Hpers; [|done].
  intros _. split.
  - exists chunks, messages. split; [done|]. split; [done|].
    assert (Htail : forall a,
      In a [Stdout ("✅ Migrated " +:+ pretty chunks +:+ " code chunks");
            Stdout ("✅ Migrated " +:+ pretty messages +:+ " conversation messages");
            Stdout "✅ Extracted personality config"] ->
      In a (main src).1).
    { intros a Ha. unfold main, print, mkdir. do 7 past_action.
      apply (in_bind_right _ _ chunks); [done|]. do 2 past_action.
      apply (in_bind_right _ _ messages); [done|]. do 2 past_action.
      apply (in_bind_right _ _ tt); [done|]. do 3 past_action.
      rewrite !bind_perform. cbn [fst].
      destruct Ha as [<-|[<-|[<-|[]]]]; cbn; tauto. }
    split; [|split]; apply Htail; cbn; tauto.
  - intros Hcfg. split.
    + unfold main, print, mkdir. do 7 past_action.
      apply (in_bind_right _ _ chunks); [done|]. do 2 past_action.
      apply (in_bind_right _ _ messages); [done|]. do 2 past_action.
      apply in_bind_left. rewrite extract_personality_cases, Hcfg. by left.
    + intros doc Hin. apply in_dumps in Hin. rewrite main_dumps, Hconv in Hin.
      apply in_app_or in Hin as [Hin|Hin]; [|apply in_app_or in Hin as [Hin|Hin]].
      * by apply chunk_dumps_not_personality in Hin.
      * by apply conversation_dumps_not_personality in Hin.
      * by rewrite personality_dumps, Hcfg in Hin.
Qed.




Lemma enumerate_from_app {A} (l1 l2 : list A) start :
  enumerate_from start (l1 ++ l2) =
  enumerate_from start l1 ++ enumerate_from (start + length l1) l2.
Proof.
  revert start. induction l1 as [|x l1 IH]; intros start; cbn.
  - by rewrite Nat.add_0_r.
  - rewrite IH. do 3 f_equal. lia.
Qed.

(** X12. Within a session file, a line on which the loop body raises stops
    the pass at that line: the events of the lines before it are written,
    the line itself and the lines after it write nothing, and the pass
    raises. *)
Theorem lines_after_a_raising_line_are_skipped session_id total before line after v n :
  loads line = Some v -> raising_value v ->
  (for_each (migrate_line session_id) (enumerate before) total).2 = Ok n ->
  (for_each (migrate_line session_id) (enumerate (before ++ line :: after)) total).1
  = (for_each (migrate_line session_id) (enumerate before) total).1 /\
  is_ok (for_each (migrate_line session_id)
           (enumerate (before ++ line :: after)) total).2 = false.
Proof.
  intros Hv Hshape Hbefore. unfold enumerate in *.
  rewrite enumerate_from_app. cbn [enumerate_from].
  rewrite for_each_app.
  assert (Hraise : is_ok (migrate_line session_id n
                            ((0 + length before)%nat, line)).2 = false).
  { apply line_raises_shape. by exists v. }
  assert (Hnil : (migrate_line session_id n ((0 + length before)%nat, line)).1 = []).
  { destruct (migrate_line_cases session_id n (0 + length before)%nat line)
      as [H|[[e H]|(msg & inner & role & content & text_content & H)]].
    - by rewrite H.
    - by rewrite H.
    - destruct H as (_ & _ & _ & _ & _ & _ & H). rewrite H in Hraise. done. }
  rewrite bind_trace, bind_result, Hbefore.
  rewrite for_each_cons, bind_trace, bind_result, Hnil.
  destruct (migrate_line session_id n ((0 + length before)%nat, line)).2
    as [k|e]; [done|].
  by rewrite app_nil_r.
Qed.




(** ** The chunk pass on the cells of the database *)

(** Lines 50-105 again, on the cells as sqlite3 returns them and with the
    outcome of every [open] taken from the environment. *)

Section ChunkPassOnDisk.

(** [json.loads] on a bytes object: the bytes decoded in the encoding the
    json library detects and parsed; [None] when either step raises. *)
Variable loads_bytes : string -> option pyval.

(** [repr] of a bytes object. *)
Variable bytes_repr : string -> string.

(** Whether [open(nexus_path / "memory" / "vector" / name, 'w')] returns: it
    raises when [name] leads through a directory that does not exist or
    names a directory, when the name is too long or holds a NUL, or when
    the tree is not writable.  The writes to a file that was opened are
    taken to succeed. *)
Variable can_open : string -> bool.

(** *** The pass on the cells *)

(** [bool(cell)]. *)
Definition cell_truthy (c : sql_value) : bool :=
  match c with
  | SqlNull => false
  | SqlInteger n => negb (n =? 0)%Z
  | SqlReal x => negb (PrimFloat.eqb x PrimFloat.zero)
  | SqlText s => negb (String.eqb s "")
  | SqlBlob b => negb (String.eqb b "")
  end.

(** The value [json.dump] writes for a cell; it raises on [bytes]. *)
Definition cell_value (c : sql_value) : option pyval :=
  match c with
  | SqlNull => Some PNone
  | SqlInteger n => Some (PInt n)
  | SqlReal x => Some (PFloat x)
  | SqlText s => Some (PStr s)
  | SqlBlob _ => None
  end.

(** [json.loads(cell)]: text and bytes are parsed, the other cells are a
    [TypeError]; [None] when it raises. *)
Definition cell_loads (c : sql_value) : option pyval :=
  match c with
  | SqlText s => loads s
  | SqlBlob b => loads_bytes b
  | SqlNull | SqlInteger _ | SqlReal _ => None
  end.

(** Lines 73-76. *)
Definition cell_embedding (c : sql_value) : pyval :=
  if cell_truthy c
  then match cell_loads c with Some v => v | None => PList [] end
  else PList [].

(** The test of line 78, negated. *)
Definition row_has_embedding (row : db_row) : bool :=
  truthy (cell_embedding (c_embedding row)).

(** How the f-string of line 98 formats a cell. *)
Definition cell_str (c : sql_value) : string :=
  match c with
  | SqlNull => "None"
  | SqlInteger n => pretty n
  | SqlReal x => py_repr (PFloat x)
  | SqlText s => s
  | SqlBlob b => bytes_repr b
  end.

Definition row_file_name (row : db_row) : string :=
  cell_str (c_id row) +:+ ".json".

(** The entry of lines 81-96 as [json.dump] serialises it: [None] when one
    of the nine cells it holds is a BLOB. *)
Definition row_entry (row : db_row) : option pyval :=
  id ← cell_value (c_id row);
  content ← cell_value (c_text row);
  source_file ← cell_value (c_path row);
  first_line ← cell_value (c_start_line row);
  last_line ← cell_value (c_end_line row);
  hash ← cell_value (c_hash row);
  model_name ← cell_value (c_model row);
  source_label ← cell_value (c_source row);
  stamp ← cell_value (c_updated_at row);
  Some (PDict [
    ("id", id);
    ("content", content);
    ("metadata", PDict [
      ("source_file", source_file);
      ("start_line", first_line);
      ("end_line", last_line);
      ("hash", hash);
      ("model", model_name);
      ("source", source_label);
      ("migrated_from", PStr "openclaw");
      ("original_timestamp", stamp)
    ]);
    ("embedding", cell_embedding (c_embedding row));
    ("timestamp", stamp)
  ]).

(** The loop of lines 69-102 from a given row on; [migrated] is the
    counter.  An [open] that raises ends the pass before the file exists, a
    [json.dump] that raises ends it with the file opened and no document in
    it. *)
Fixpoint migrate_rows (rows : list db_row) (migrated : nat)
    : list chunk_event * chunk_result :=
  match rows with
  | [] => ([], Returned migrated)
  | row :: rest =>
      if negb (row_has_embedding row) then migrate_rows rest migrated
      else if negb (can_open (row_file_name row)) then ([], Aborted OpenError)
      else
        match row_entry row with
        | None => ([ChunkOpen (row_file_name row)], Aborted DumpError)
        | Some doc =>
            (ChunkOpen (row_file_name row) :: ChunkDump (row_file_name row) doc
               :: (migrate_rows rest (S migrated)).1,
             (migrate_rows rest (S migrated)).2)
        end
  end.

Definition migrate_code_chunks_db (db : chunk_db)
    : list chunk_event * chunk_result :=
  match db with
  | DbMissing => ([ChunkPrint "   ⚠️  No OpenClaw database found"], Returned 0)
  | DbFails None => ([ChunkConnect], Aborted DatabaseError)
  | DbFails (Some n) =>
      ([ChunkConnect; ChunkPrint ("   Found " +:+ pretty n +:+ " code chunks")],
       Aborted DatabaseError)
  | DbRows rows =>
      (ChunkConnect
         :: ChunkPrint ("   Found " +:+ pretty (length rows) +:+ " code chunks")
         :: (migrate_rows rows 0).1,
       (migrate_rows rows 0).2)
  end.


(** *** What the loop does *)

Lemma migrate_rows_app before after migrated :
  migrate_rows (before ++ after) migrated =
  match (migrate_rows before migrated).2 with
  | Returned n =>
      ((migrate_rows before migrated).1 ++ (migrate_rows after n).1,
       (migrate_rows after n).2)
  | Aborted e => migrate_rows before migrated
  end.
Proof.
  revert migrated. induction before as [|row before IH]; intros migrated.
  - simpl. by destruct (migrate_rows after migrated).
  - simpl. destruct (row_has_embedding row); simpl; [|apply IH].
    destruct (can_open (row_file_name row)); simpl; [|done].
    destruct (row_entry row) as [doc|]; [|done].
    rewrite IH.
    by destruct (migrate_rows before (S migrated)) as [events [n|e]].
Qed.

(** A row the loop reaches: what it does there and how it goes on. *)
Lemma migrate_rows_reached before row after migrated n :
  (migrate_rows before migrated).2 = Returned n ->
  migrate_rows (before ++ row :: after) migrated =
  if row_has_embedding row then
    if can_open (row_file_name row) then
      match row_entry row with
      | Some doc =>
          ((migrate_rows before migrated).1
             ++ ChunkOpen (row_file_name row) :: ChunkDump (row_file_name row) doc
             :: (migrate_rows after (S n)).1,
           (migrate_rows after (S n)).2)
      | None =>
          ((migrate_rows before migrated).1 ++ [ChunkOpen (row_file_name row)],
           Aborted DumpError)
      end
    else ((migrate_rows before migrated).1, Aborted OpenError)
  else
    ((migrate_rows before migrated).1 ++ (migrate_rows after n).1,
     (migrate_rows after n).2).
Proof.
  intros Hbefore. rewrite migrate_rows_app, Hbefore. simpl.
  destruct (row_has_embedding row); simpl; [|done].
  destruct (can_open (row_file_name row)); simpl; [|by rewrite app_nil_r].
  by destruct (row_entry row).
Qed.

(** Every event of the loop is the open or the dump of a row that has an
    embedding and whose file could be opened. *)
Lemma migrate_rows_events rows migrated e :
  In e (migrate_rows rows migrated).1 ->
  exists row,
    In row rows /\ row_has_embedding row = true /\
    can_open (row_file_name row) = true /\
    (e = ChunkOpen (row_file_name row) \/
     exists doc, row_entry row = Some doc /\ e = ChunkDump (row_file_name row) doc).
Proof.
  revert migrated. induction rows as [|row rows IH]; intros migrated; [done|].
  simpl. destruct (row_has_embedding row) eqn:Hhas; simpl.
  - destruct (can_open (row_file_name row)) eqn:Hopen; simpl; [|done].
    destruct (row_entry row) as [doc|] eqn:Hdoc; simpl.
    + intros [<-|[<-|Hin]].
      * exists row. split; [by left|]. repeat split; try done. by left.
      * exists row. split; [by left|]. repeat split; try done. right. by exists doc.
      * destruct (IH _ Hin) as (r & Hr & H). exists r. split; [by right | done].
    + intros [<-|[]]. exists row. split; [by left|]. repeat split; try done. by left.
  - intros Hin. destruct (IH _ Hin) as (r & Hr & H). exists r. split; [by right | done].
Qed.

(** The loop returns exactly when every row that has an embedding can be
    opened and serialised. *)
Lemma migrate_rows_returns rows migrated :
  (exists n, (migrate_rows rows migrated).2 = Returned n) <->
  (forall row,
     In row rows -> row_has_embedding row = true ->
     can_open (row_file_name row) = true /\ is_Some (row_entry row)).
Proof.
  revert migrated. induction rows as [|row rows IH]; intros migrated.
  - simpl. split; [done|]. intros _. by exists migrated.
  - simpl. destruct (row_has_embedding row) eqn:Hhas; simpl.
    + destruct (can_open (row_file_name row)) eqn:Hopen; simpl.
      * destruct (row_entry row) as [doc|] eqn:Hdoc; simpl.
        -- rewrite IH. split.
           ++ intros Hall r [<-|Hr] Hr'; [by rewrite Hopen, Hdoc | by apply Hall].
           ++ intros Hall r Hr. apply Hall. by right.
        -- split; [by intros [n Hn]|]. intros Hall.
           destruct (Hall row (or_introl eq_refl) Hhas) as [_ [doc Hsome]].
           congruence.
      * split; [by intros [n Hn]|]. intros Hall.
        destruct (Hall row (or_introl eq_refl) Hhas) as [Hcan _]. congruence.
    + rewrite IH. split.
      * intros Hall r [<-|Hr] Hr'; [congruence | by apply Hall].
      * intros Hall r Hr. apply Hall. by right.
Qed.

(** When the loop returns it has opened and dumped the rows that have an
    embedding, each once and in order, and counted them. *)
Lemma migrate_rows_returned rows migrated n :
  (migrate_rows rows migrated).2 = Returned n ->
  n = (migrated + length (List.filter row_has_embedding rows))%nat /\
  chunk_opens (migrate_rows rows migrated).1
    = map row_file_name (List.filter row_has_embedding rows) /\
  Forall2 (fun row d => d.1 = row_file_name row /\ row_entry row = Some d.2)
    (List.filter row_has_embedding rows)
    (chunk_dumps (migrate_rows rows migrated).1).
Proof.
  revert migrated. induction rows as [|row rows IH]; intros migrated.
  - simpl. intros [= <-]. split; [lia|]. split; [done|]. constructor.
  - simpl. destruct (row_has_embedding row) eqn:Hhas; simpl; [|apply IH].
    destruct (can_open (row_file_name row)); simpl; [|done].
    destruct (row_entry row) as [doc|] eqn:Hdoc; simpl; [|done].
    intros Hn. destruct (IH _ Hn) as (-> & Hopens & Hdumps).
    split; [lia|]. split; [by rewrite Hopens|]. by constructor.
Qed.

Lemma migrate_rows_counts rows migrated n :
  (migrate_rows rows migrated).2 = Returned n ->
  n = (migrated + length (chunk_dumps (migrate_rows rows migrated).1))%nat.
Proof.
  intros Hn. destruct (migrate_rows_returned rows migrated n Hn) as (-> & _ & Hdumps).
  by rewrite (Forall2_length _ _ _ Hdumps).
Qed.

(** What lines 73-78 let through: a non-empty text or BLOB that parses to a
    value Python takes for true. *)
Lemma row_has_embedding_iff row :
  row_has_embedding row = true <->
  exists v,
    truthy v = true /\
    ((exists s, c_embedding row = SqlText s /\ s <> "" /\ loads s = Some v) \/
     (exists b, c_embedding row = SqlBlob b /\ b <> "" /\ loads_bytes b = Some v)).
Proof.
  unfold row_has_embedding, cell_embedding, cell_loads. split.
  - destruct (c_embedding row) as [|n|x|s|b] eqn:Hcell; simpl.
    + done.
    + by destruct (negb (n =? 0)%Z).
    + by destruct (negb (PrimFloat.eqb x PrimFloat.zero)).
    + destruct (String.eqb_spec s "") as [->|Hne]; simpl; [done|].
      destruct (loads s) as [v|] eqn:Hv; simpl; [|done].
      intros Ht. exists v. split; [done|]. left. by exists s.
    + destruct (String.eqb_spec b "") as [->|Hne]; simpl; [done|].
      destruct (loads_bytes b) as [v|] eqn:Hv; simpl; [|done].
      intros Ht. exists v. split; [done|]. right. by exists b.
  - intros (v & Ht & [(s & -> & Hne & Hv)|(b & -> & Hne & Hv)]); simpl.
    + destruct (String.eqb_spec s "") as [->|_]; [done|]. simpl. by rewrite Hv.
    + destruct (String.eqb_spec b "") as [->|_]; [done|]. simpl. by rewrite Hv.
Qed.

Lemma row_without_embedding row :
  c_embedding row = SqlNull \/
  c_embedding row = SqlText "" \/
  c_embedding row = SqlBlob "" \/
  cell_loads (c_embedding row) = None \/
  cell_loads (c_embedding row) = Some (PList []) ->
  row_has_embedding row = false.
Proof.
  unfold row_has_embedding, cell_embedding.
  intros [->|[->|[->|[->| ->]]]]; try done.
  - by destruct (cell_truthy (c_embedding row)).
  - by destruct (cell_truthy (c_embedding row)).
Qed.

(** The entry cannot be serialised exactly when one of its nine cells is a
    BLOB. *)
Lemma row_entry_none row :
  row_entry row = None <->
  exists b,
    In (SqlBlob b)
       [c_id row; c_text row; c_path row; c_start_line row; c_end_line row;
        c_hash row; c_model row; c_source row; c_updated_at row].
Proof.
  assert (Hcell : forall c, cell_value c = None <-> exists b, c = SqlBlob b).
  { intros [| | | |b]; simpl; split; try done; try (by intros [b' ?]).
    intros _. by exists b. }
  unfold row_entry. split.
  - intros Hnone.
    destruct (cell_value (c_id row)) eqn:H1;
      [|apply Hcell in H1 as [b ->]; exists b; simpl; tauto].
    destruct (cell_value (c_text row)) eqn:H2;
      [|apply Hcell in H2 as [b ->]; exists b; simpl; tauto].
    destruct (cell_value (c_path row)) eqn:H3;
      [|apply Hcell in H3 as [b ->]; exists b; simpl; tauto].
    destruct (cell_value (c_start_line row)) eqn:H4;
      [|apply Hcell in H4 as [b ->]; exists b; simpl; tauto].
    destruct (cell_value (c_end_line row)) eqn:H5;
      [|apply Hcell in H5 as [b ->]; exists b; simpl; tauto].
    destruct (cell_value (c_hash row)) eqn:H6;
      [|apply Hcell in H6 as [b ->]; exists b; simpl; tauto].
    destruct (cell_value (c_model row)) eqn:H7;
      [|apply Hcell in H7 as [b ->]; exists b; simpl; tauto].
    destruct (cell_value (c_source row)) eqn:H8;
      [|apply Hcell in H8 as [b ->]; exists b; simpl; tauto].
    destruct (cell_value (c_updated_at row)) eqn:H9;
      [|apply Hcell in H9 as [b ->]; exists b; simpl; tauto].
    done.
  - intros (b & Hin). simpl in Hin.
    destruct Hin as [H|[H|[H|[H|[H|[H|[H|[H|[H|[]]]]]]]]]]; rewrite H; simpl;
      repeat (match goal with
              | |- context [cell_value ?c] => destruct (cell_value c); simpl
              end);
      done.
Qed.

(** *** The two embeddings of the chunk pass *)



(** *** The claims about the chunk pass *)

(** C1, as amended.  The loop calls [open] on a destination file at the
    rows it reaches whose embedding cell parses to a value Python takes for
    true (a non-empty list, string or object, a non-zero number, or true),
    and at no other row; the cell may be a text or a BLOB.  At such a row
    the file is written and the row counted when the open returns and no
    cell of the entry is a BLOB; otherwise the pass ends there with the
    exception.  A row whose embedding cell is NULL, empty, unparseable, or
    parses to an empty list has no embedding: the loop does nothing for it
    and goes on to the next row.  The pass returns exactly when every row
    with an embedding can be opened and serialised, and then it has opened
    and written one file for each of them, in order, and returns their
    number. *)
Theorem chunk_opened_iff_embedding_true :
  (forall row,
     row_has_embedding row = true <->
     exists v,
       truthy v = true /\
       ((exists s, c_embedding row = SqlText s /\ s <> "" /\ loads s = Some v) \/
        (exists b, c_embedding row = SqlBlob b /\ b <> "" /\
                   loads_bytes b = Some v))) /\
  (forall row,
     c_embedding row = SqlNull \/
     c_embedding row = SqlText "" \/
     c_embedding row = SqlBlob "" \/
     cell_loads (c_embedding row) = None \/
     cell_loads (c_embedding row) = Some (PList []) ->
     row_has_embedding row = false) /\
  (forall before row after migrated n,
     (migrate_rows before migrated).2 = Returned n ->
     migrate_rows (before ++ row :: after) migrated =
     if row_has_embedding row then
       if can_open (row_file_name row) then
         match row_entry row with
         | Some doc =>
             ((migrate_rows before migrated).1
                ++ ChunkOpen (row_file_name row)
                :: ChunkDump (row_file_name row) doc
                :: (migrate_rows after (S n)).1,
              (migrate_rows after (S n)).2)
         | None =>
             ((migrate_rows before migrated).1 ++ [ChunkOpen (row_file_name row)],
              Aborted DumpError)
         end
       else ((migrate_rows before migrated).1, Aborted OpenError)
     else
       ((migrate_rows before migrated).1 ++ (migrate_rows after n).1,
        (migrate_rows after n).2)) /\
  (forall rows name,
     In (ChunkOpen name) (migrate_code_chunks_db (DbRows rows)).1 ->
     exists row,
       In row rows /\ row_has_embedding row = true /\ name = row_file_name row) /\
  (forall rows,
     (exists n, (migrate_code_chunks_db (DbRows rows)).2 = Returned n) <->
     (forall row,
        In row rows -> row_has_embedding row = true ->
        can_open (row_file_name row) = true /\ is_Some (row_entry row))) /\
  (forall rows n,
     (migrate_code_chunks_db (DbRows rows)).2 = Returned n ->
     n = length (List.filter row_has_embedding rows) /\
     chunk_opens (migrate_code_chunks_db (DbRows rows)).1
       = map row_file_name (List.filter row_has_embedding rows) /\
     Forall2 (fun row d => d.1 = row_file_name row /\ row_entry row = Some d.2)
       (List.filter row_has_embedding rows)
       (chunk_dumps (migrate_code_chunks_db (DbRows rows)).1)).
Proof.
  split; [apply row_has_embedding_iff|].
  split; [apply row_without_embedding|].
  split; [apply migrate_rows_reached|].
  split; [|split].
  - intros rows name [Hin|[Hin|Hin]]; try done.
    apply migrate_rows_events in Hin as (row & Hrow & Hhas & _ & [He|(doc & _ & He)]);
      [|done].
    injection He as ->. by exists row.
  - intros rows. apply migrate_rows_returns.
  - intros rows n Hn. cbn [migrate_code_chunks_db fst snd chunk_opens chunk_dumps] in *.
    by apply migrate_rows_returned in Hn.
Qed.

(** C3, as amended.  At a row the loop reaches whose embedding parses to a
    non-empty list, the loop calls [open] on exactly one file, under the
    name made of the row's identifier and ".json", resolved against the
    vector directory.  When that open raises the pass ends with no file for
    the row; when it returns and a cell of the entry is a BLOB the pass
    ends with the file opened and no document in it; otherwise the document
    written carries the row's identifier and the parsed embedding, its
    metadata object holds the row's path, line range, hash, model, source
    label and update time unchanged, and the loop goes on to the next
    row. *)
Theorem chunk_file_named_by_id_carries_metadata before row after migrated n
    item items :
  cell_embedding (c_embedding row) = PList (item :: items) ->
  (migrate_rows before migrated).2 = Returned n ->
  (can_open (cell_str (c_id row) +:+ ".json") = false ->
   migrate_rows (before ++ row :: after) migrated
   = ((migrate_rows before migrated).1, Aborted OpenError)) /\
  (can_open (cell_str (c_id row) +:+ ".json") = true ->
   row_entry row = None ->
   migrate_rows (before ++ row :: after) migrated
   = ((migrate_rows before migrated).1
        ++ [ChunkOpen (cell_str (c_id row) +:+ ".json")],
      Aborted DumpError)) /\
  (can_open (cell_str (c_id row) +:+ ".json") = true ->
   forall doc,
     row_entry row = Some doc ->
     migrate_rows (before ++ row :: after) migrated
     = ((migrate_rows before migrated).1
          ++ ChunkOpen (cell_str (c_id row) +:+ ".json")
          :: ChunkDump (cell_str (c_id row) +:+ ".json") doc
          :: (migrate_rows after (S n)).1,
        (migrate_rows after (S n)).2) /\
     (exists id, cell_value (c_id row) = Some id /\ py_get doc "id" PNone = Ok id) /\
     py_get doc "embedding" PNone = Ok (PList (item :: items)) /\
     exists metadata,
       py_get doc "metadata" PNone = Ok (PDict metadata) /\
       assoc_get "source_file" metadata = cell_value (c_path row) /\
       assoc_get "start_line" metadata = cell_value (c_start_line row) /\
       assoc_get "end_line" metadata = cell_value (c_end_line row) /\
       assoc_get "hash" metadata = cell_value (c_hash row) /\
       assoc_get "model" metadata = cell_value (c_model row) /\
       assoc_get "source" metadata = cell_value (c_source row) /\
       assoc_get "original_timestamp" metadata = cell_value (c_updated_at row)) /\
  (row_entry row = None <->
   exists b,
     In (SqlBlob b)
        [c_id row; c_text row; c_path row; c_start_line row; c_end_line row;
         c_hash row; c_model row; c_source row; c_updated_at row]).
Proof.
  intros Hemb Hbefore.
  assert (Hhas : row_has_embedding row = true)
    by (unfold row_has_embedding; by rewrite Hemb).
  pose proof (migrate_rows_reached before row after migrated n Hbefore) as Hrun.
  rewrite Hhas in Hrun. unfold row_file_name in Hrun.
  split; [|split; [|split]].
  - intros Hopen. by rewrite Hrun, Hopen.
  - intros Hopen Hdoc. by rewrite Hrun, Hopen, Hdoc.
  - intros Hopen doc Hdoc. rewrite Hrun, Hopen, Hdoc. split; [done|].
    unfold row_entry in Hdoc.
    destruct (cell_value (c_id row)) as [id|]; [|done].
    destruct (cell_value (c_text row)) as [content|]; [|done].
    destruct (cell_value (c_path row)) as [source_file|]; [|done].
    destruct (cell_value (c_start_line row)) as [first_line|]; [|done].
    destruct (cell_value (c_end_line row)) as [last_line|]; [|done].
    destruct (cell_value (c_hash row)) as [hash|]; [|done].
    destruct (cell_value (c_model row)) as [model_name|]; [|done].
    destruct (cell_value (c_source row)) as [source_label|]; [|done].
    destruct (cell_value (c_updated_at row)) as [stamp|]; [|done].
    simpl in Hdoc. injection Hdoc as <-.
    split; [by exists id|]. split.
    + cbn. unfold dict_get. cbn. by rewrite Hemb.
    + eexists. split; [done|]. by repeat split.
  - apply row_entry_none.
Qed.

(** X3. The number a pass returns is the number of documents it dumped,
    whenever it returns: the chunk pass on any database, with BLOB cells
    and with opens that raise, and the conversation pass. *)
Theorem returned_count_is_number_of_dumps :
  (forall db n,
     (migrate_code_chunks_db db).2 = Returned n ->
     n = length (chunk_dumps (migrate_code_chunks_db db).1)) /\
  (forall src n,
     (migrate_conversations src).2 = Ok n ->
     n = length (dumps (migrate_conversations src).1)).
Proof.
  split.
  - intros [|[counted|]|rows] n; cbn [migrate_code_chunks_db fst snd chunk_dumps];
      try done.
    + by intros [= <-].
    + intros Hn. by apply migrate_rows_counts in Hn.
  - intros src n Hn. destruct (sessions_dir src) as [listing|] eqn:Hdir.
    + destruct (migrate_conversations_present src listing Hdir) as [out Hconv].
      rewrite Hconv in Hn |- *. cbn [fst snd dumps] in *.
      pose proof (for_each_counts migrate_session
                    (List.filter (fun f => active_session f.1) listing) 0%nat
                    migrate_session_counts) as Hcount.
      rewrite Hn in Hcount. lia.
    + rewrite (migrate_conversations_absent src Hdir) in Hn |- *.
      by injection Hn as <-.
Qed.

End ChunkPassOnDisk.

End Migration.

(** ** The theorems at the sample inputs *)

(** C1, as stated, fails twice.  The embedding cell "1" parses to the
    number 1, which is no sequence, and the row's file is written all the
    same.  And a row whose embedding parses to the non-empty list [1] gets
    no file when its identifier is a/b and the vector directory has no
    subdirectory a: the open raises and the pass ends there, before the
    next row.  With a BLOB in the path cell the file is opened and the dump
    raises: the pass ends with no document in the file. *)
Lemma number_is_written_and_list_is_not :
  cell_embedding sample_loads sample_loads_bytes (SqlText "1") = PInt 1 /\
  nonempty_sequence (PInt 1) = false /\
  migrate_code_chunks_db sample_loads sample_repr sample_loads_bytes
    sample_bytes_repr flat_vector_dir
    (DbRows [sample_db_row "c5" (SqlText "1")])
  = ([ChunkConnect; ChunkPrint "   Found 1 code chunks";
      ChunkOpen "c5.json"; ChunkDump "c5.json" (sample_entry "c5" (PInt 1))],
     Returned 1) /\
  cell_embedding sample_loads sample_loads_bytes (SqlText "[1]") = PList [PInt 1] /\
  nonempty_sequence (PList [PInt 1]) = true /\
  flat_vector_dir "a/b.json" = false /\
  migrate_code_chunks_db sample_loads sample_repr sample_loads_bytes
    sample_bytes_repr flat_vector_dir
    (DbRows [sample_db_row "a/b" (SqlText "[1]"); sample_db_row "c1" (SqlText "[1]")])
  = ([ChunkConnect; ChunkPrint "   Found 2 code chunks"], Aborted OpenError) /\
  migrate_code_chunks_db sample_loads sample_repr sample_loads_bytes
    sample_bytes_repr flat_vector_dir
    (DbRows [sample_blob_path_row; sample_db_row "c1" (SqlText "[1]")])
  = ([ChunkConnect; ChunkPrint "   Found 2 code chunks"; ChunkOpen "c7.json"],
     Aborted DumpError).
Proof. by vm_compute. Qed.

Lemma chunk_opened_iff_embedding_true_witness :
  (migrate_code_chunks_db sample_loads sample_repr sample_loads_bytes
     sample_bytes_repr flat_vector_dir (DbRows sample_db_rows)).2 = Returned 3 /\
  chunk_opens
    (migrate_code_chunks_db sample_loads sample_repr sample_loads_bytes
       sample_bytes_repr flat_vector_dir (DbRows sample_db_rows)).1
  = ["c1.json"; "c5.json"; "c6.json"].
Proof.
  assert (Hres : (migrate_code_chunks_db sample_loads sample_repr sample_loads_bytes
     sample_bytes_repr flat_vector_dir (DbRows sample_db_rows)).2 = Returned 3)
    by reflexivity.
  split; [exact Hres|].
  destruct (chunk_opened_iff_embedding_true sample_loads sample_repr
              sample_loads_bytes sample_bytes_repr flat_vector_dir)
    as (_ & _ & _ & _ & _ & Hreturned).
  destruct (Hreturned sample_db_rows 3%nat Hres) as (_ & Hopens & _).
  rewrite Hopens. reflexivity.
Defined.

Lemma message_index_is_line_position_witness :
  map fst (dumps (migrate_session sample_loads sample_repr 0
                    ("s1.jsonl", sample_lines)).1)
  = ["memory/events/openclaw_s1_0.json"; "memory/events/openclaw_s1_3.json"] /\
  In (JsonDump "memory/events/openclaw_s1_3.json"
        (conversation_event (PStr "user") "a b" (PStr "unknown") "s1" 3))
     (migrate_session sample_loads sample_repr 0 ("s1.jsonl", sample_lines)).1 /\
  exists idx line msg inner role content,
    (idx < 4)%nat /\
    sample_lines !! idx = Some line /\
    "memory/events/openclaw_s1_3.json" = event_file (stem "s1.jsonl") idx /\
    py_get (conversation_event (PStr "user") "a b" (PStr "unknown") "s1" 3)
      "message_index" PNone = Ok (PInt (Z.of_nat idx)) /\
    sample_loads line = Some (PDict msg) /\
    assoc_get "type" msg = Some (PStr "message") /\
    assoc_get "message" msg = Some (PDict inner) /\
    assoc_get "role" inner = Some role /\
    assoc_get "content" inner = Some content.
Proof.
  assert (Hin : In (JsonDump "memory/events/openclaw_s1_3.json"
        (conversation_event (PStr "user") "a b" (PStr "unknown") "s1" 3))
     (migrate_session sample_loads sample_repr 0 ("s1.jsonl", sample_lines)).1).
  { vm_compute. right; right; left. reflexivity. }
  split; [reflexivity|]. split; [exact Hin|].
  exact (proj1 (message_index_is_line_position sample_loads sample_repr 0
                  "s1.jsonl" sample_lines) _ _ Hin).
Defined.

(** C3, as stated, fails: the embedding of each row parses to the non-empty
    list [1].  With the identifier a/b and no subdirectory a in the vector
    directory the open raises: no file is written for the row, nor for the
    row after it.  With a BLOB in the path cell the file is opened and the
    dump raises: the file holds no metadata, and the row after it gets no
    file. *)
Lemma slash_identifier_writes_no_file :
  cell_embedding sample_loads sample_loads_bytes (SqlText "[1]") = PList [PInt 1] /\
  flat_vector_dir "a/b.json" = false /\
  migrate_code_chunks_db sample_loads sample_repr sample_loads_bytes
    sample_bytes_repr flat_vector_dir
    (DbRows [sample_db_row "a/b" (SqlText "[1]"); sample_db_row "c1" (SqlText "[1]")])
  = ([ChunkConnect; ChunkPrint "   Found 2 code chunks"], Aborted OpenError) /\
  migrate_code_chunks_db sample_loads sample_repr sample_loads_bytes
    sample_bytes_repr flat_vector_dir
    (DbRows [sample_blob_path_row; sample_db_row "c1" (SqlText "[1]")])
  = ([ChunkConnect; ChunkPrint "   Found 2 code chunks"; ChunkOpen "c7.json"],
     Aborted DumpError).
Proof. by vm_compute. Qed.

Lemma chunk_file_named_by_id_carries_metadata_witness :
  cell_embedding sample_loads sample_loads_bytes (SqlBlob "[1]") = PList [PInt 1] /\
  migrate_rows sample_loads sample_repr sample_loads_bytes sample_bytes_repr
    flat_vector_dir
    ([sample_db_row "c5" (SqlText "1")] ++ sample_db_row "c6" (SqlBlob "[1]") :: [])
    0
  = ([ChunkOpen "c5.json"; ChunkDump "c5.json" (sample_entry "c5" (PInt 1));
      ChunkOpen "c6.json";
      ChunkDump "c6.json" (sample_entry "c6" (PList [PInt 1]))],
     Returned 2).
Proof.
  split; [reflexivity|].
  exact (proj1 (proj1 (proj2 (proj2
           (chunk_file_named_by_id_carries_metadata sample_loads sample_repr
              sample_loads_bytes sample_bytes_repr flat_vector_dir
              [sample_db_row "c5" (SqlText "1")]
              (sample_db_row "c6" (SqlBlob "[1]")) [] 0%nat 1%nat (PInt 1) []
              eq_refl eq_refl)))
           eq_refl (sample_entry "c6" (PList [PInt 1])) eq_refl)).
Defined.

(** C4, as stated, fails: a part of type "text" whose text is null makes
    the join raise, and the line, though it passes the filter, yields no
    text and no event. *)
Lemma null_text_part_raises :
  extract_text sample_repr
    (PList [PDict [("type", PStr "text"); ("text", PNone)]]) = Raise TypeError /\
  migrate_line sample_loads sample_repr "s1" 0 (0%nat, line_null_text)
  = ([], Raise TypeError).
Proof. by vm_compute. Qed.

Lemma extract_text_joins_text_parts_witness :
  map part_text (List.filter is_text_part sample_parts) = map PStr ["a"; "b"; ""] /\
  extract_text sample_repr (PList sample_parts) = Ok "a b ".
Proof.
  split; [reflexivity|].
  exact (proj1 (extract_text_joins_text_parts sample_repr)
           sample_parts ["a"; "b"; ""] eq_refl).
Defined.

Lemma rerun_changes_only_the_timestamp_witness :
  "memory/vector/c1.json" <> personality_file /\
  tree_files
    (run_tool sample_loads sample_repr
       (set_clock "2026-02-02T00:00:00"
          (sample_sources (Some sample_rows) (Some sample_listing) (Some "{}")))
       (run_tool sample_loads sample_repr
          (sample_sources (Some sample_rows) (Some sample_listing) (Some "{}"))
          empty_tree))
    !! "memory/vector/c1.json"
  = tree_files
      (run_tool sample_loads sample_repr
         (sample_sources (Some sample_rows) (Some sample_listing) (Some "{}"))
         empty_tree)
      !! "memory/vector/c1.json".
Proof.
  assert (Hne : "memory/vector/c1.json" <> personality_file) by discriminate.
  split; [exact Hne|].
  destruct (rerun_changes_only_the_timestamp sample_loads sample_repr
              (sample_sources (Some sample_rows) (Some sample_listing) (Some "{}"))
              "2026-02-02T00:00:00" empty_tree)
    as (_ & _ & _ & _ & Hother & _).
  exact (Hother _ Hne).
Defined.

Lemma missing_sources_are_skipped_witness :
  database (sample_sources None None None) = None /\
  sessions_dir (sample_sources None None None) = None /\
  config_file (sample_sources None None None) = None /\
  exit_status (main sample_loads sample_repr (sample_sources None None None)) = 0%Z /\
  dumps (main sample_loads sample_repr (sample_sources None None None)).1 = [].
Proof.
  split; [reflexivity|]. split; [reflexivity|]. split; [reflexivity|].
  destruct (missing_sources_are_skipped sample_loads sample_repr
              (sample_sources None None None)) as (_ & _ & _ & _ & Hall).
  exact (Hall eq_refl eq_refl eq_refl).
Defined.

Lemma only_active_sessions_are_read_witness :
  sessions_dir (sample_sources None (Some sample_listing) None) = Some sample_listing /\
  (migrate_conversations sample_loads sample_repr
     (sample_sources None (Some sample_listing) None)).2 = Ok 2%nat /\
  reads (migrate_conversations sample_loads sample_repr
           (sample_sources None (Some sample_listing) None)).1
  = ["agents/main/sessions/s1.jsonl"].
Proof.
  split; [reflexivity|].
  assert (Hok : (migrate_conversations sample_loads sample_repr
     (sample_sources None (Some sample_listing) None)).2 = Ok 2%nat) by reflexivity.
  split; [exact Hok|].
  destruct (only_active_sessions_are_read sample_loads sample_repr
              (sample_sources None (Some sample_listing) None) sample_listing eq_refl)
    as (_ & Hreads & _ & _).
  rewrite (Hreads _ Hok). reflexivity.
Defined.

Lemma malformed_config_is_fatal_witness :
  config_file (sample_sources None None (Some "not json")) = Some "not json" /\
  sample_loads "not json" = None /\
  extract_personality sample_loads
    (sample_sources None None (Some "not json"))
  = ([OpenRead "openclaw.json"], Raise JSONDecodeError) /\
  exit_status (main sample_loads sample_repr
                 (sample_sources None None (Some "not json"))) = 1%Z.
Proof.
  split; [reflexivity|]. split; [reflexivity|].
  destruct (malformed_config_is_fatal sample_loads sample_repr
              (sample_sources None None (Some "not json")) "not json"
              eq_refl eq_refl) as (Hpers & Hexit & _).
  split; [exact Hpers | exact Hexit].
Defined.

Lemma string_message_aborts_the_run_witness :
  sample_loads line_string_message
  = Some (PDict [("type", PStr "message"); ("message", PStr "role content")]) /\
  str_contains "role" "role content" = true /\
  str_contains "content" "role content" = true /\
  migrate_line sample_loads sample_repr "s1" 0 (1%nat, line_string_message)
  = ([], Raise AttributeError) /\
  map fst (dumps (main sample_loads sample_repr
                    (sample_sources None
                       (Some [("s1.jsonl", [line_a_b; line_string_message; line_a_b])])
                       None)).1)
  = ["memory/events/openclaw_s1_0.json"] /\
  exit_status
    (main sample_loads sample_repr
       (sample_sources None
          (Some [("s1.jsonl", [line_a_b; line_string_message; line_a_b])]) None))
  = 1%Z.
Proof.
  split; [reflexivity|]. split; [reflexivity|]. split; [reflexivity|].
  destruct (string_message_aborts_the_run sample_loads sample_repr
              line_string_message
              [("type", PStr "message"); ("message", PStr "role content")]
              "role content" eq_refl eq_refl eq_refl eq_refl eq_refl)
    as (Hline & Hrun).
  split; [exact (Hline "s1" 0%nat 1%nat)|]. split; [reflexivity|].
  refine (proj2 (Hrun (sample_sources None
          (Some [("s1.jsonl", [line_a_b; line_string_message; line_a_b])]) None)
          [("s1.jsonl", [line_a_b; line_string_message; line_a_b])]
          "s1.jsonl" [line_a_b; line_string_message; line_a_b]
          eq_refl _ eq_refl _)).
  - left. reflexivity.
  - right. left. reflexivity.
Defined.

Lemma event_timestamp_from_top_level_witness :
  In (JsonDump "memory/events/openclaw_s1_0.json"
        (conversation_event (PStr "user") "hi" (PStr "unknown") "s1" 0))
     (migrate_session sample_loads sample_repr 0
        ("s1.jsonl", [line_inner_timestamp])).1 /\
  exists idx line msg inner,
    [line_inner_timestamp] !! idx = Some line /\
    "memory/events/openclaw_s1_0.json" = event_file (stem "s1.jsonl") idx /\
    sample_loads line = Some (PDict msg) /\
    assoc_get "message" msg = Some (PDict inner) /\
    py_get (conversation_event (PStr "user") "hi" (PStr "unknown") "s1" 0)
      "timestamp" PNone
    = Ok (dict_get msg "timestamp" (PStr "unknown")) /\
    (assoc_get "timestamp" msg = None ->
     py_get (conversation_event (PStr "user") "hi" (PStr "unknown") "s1" 0)
       "timestamp" PNone
     = Ok (PStr "unknown")).
Proof.
  assert (Hin : In (JsonDump "memory/events/openclaw_s1_0.json"
        (conversation_event (PStr "user") "hi" (PStr "unknown") "s1" 0))
     (migrate_session sample_loads sample_repr 0
        ("s1.jsonl", [line_inner_timestamp])).1).
  { vm_compute. right; left. reflexivity. }
  split; [exact Hin|].
  exact (event_timestamp_from_top_level sample_loads sample_repr 0 "s1.jsonl"
           [line_inner_timestamp] _ _ Hin).
Defined.

(** ** The further properties at the sample inputs *)




Lemma exit_status_zero_requires_witness :
  exit_status (main sample_loads sample_repr
                 (sample_sources None (Some sample_listing) (Some "{}"))) = 0%Z /\
  exists config, sample_loads "{}" = Some config.
Proof.
  assert (Hexit : exit_status (main sample_loads sample_repr
                 (sample_sources None (Some sample_listing) (Some "{}"))) = 0%Z)
    by reflexivity.
  split; [exact Hexit|].
  exact (proj2 (exit_status_zero_requires sample_loads sample_repr
                  (sample_sources None (Some sample_listing) (Some "{}")) Hexit)
           "{}" eq_refl).
Defined.

Lemma returned_count_is_number_of_dumps_witness :
  (migrate_code_chunks_db sample_loads sample_repr sample_loads_bytes
     sample_bytes_repr flat_vector_dir (DbRows sample_db_rows)).2 = Returned 3 /\
  3%nat = length (chunk_dumps
                    (migrate_code_chunks_db sample_loads sample_repr
                       sample_loads_bytes sample_bytes_repr flat_vector_dir
                       (DbRows sample_db_rows)).1) /\
  (migrate_conversations sample_loads sample_repr
     (sample_sources None (Some sample_listing) None)).2 = Ok 2%nat /\
  2%nat = length (dumps (migrate_conversations sample_loads sample_repr
                           (sample_sources None (Some sample_listing) None)).1).
Proof.
  assert (Hchunks : (migrate_code_chunks_db sample_loads sample_repr
     sample_loads_bytes sample_bytes_repr flat_vector_dir
     (DbRows sample_db_rows)).2 = Returned 3) by reflexivity.
  assert (Hok : (migrate_conversations sample_loads sample_repr
     (sample_sources None (Some sample_listing) None)).2 = Ok 2%nat) by reflexivity.
  destruct (returned_count_is_number_of_dumps sample_loads sample_repr
              sample_loads_bytes sample_bytes_repr flat_vector_dir)
    as [Hdb Hconv].
  split; [exact Hchunks|]. split; [exact (Hdb _ 3%nat Hchunks)|].
  split; [exact Hok | exact (Hconv _ 2%nat Hok)].
Defined.

Lemma extract_text_raises_iff_witness :
  extract_text sample_repr (PList [text_part "a"; PDict [("type", PStr "text"); ("text", PInt 5)]])
  = Raise TypeError.
Proof.
  apply (proj2 (extract_text_raises_iff sample_repr
                  (PList [text_part "a"; PDict [("type", PStr "text"); ("text", PInt 5)]])
                  TypeError)).
  split; [reflexivity|].
  exists [text_part "a"; PDict [("type", PStr "text"); ("text", PInt 5)]],
         (PDict [("type", PStr "text"); ("text", PInt 5)]).
  split; [reflexivity|]. split; [right; left; reflexivity|].
  split; [reflexivity|]. intros s; discriminate.
Defined.

Lemma active_session_iff_witness :
  active_session "s1.jsonl" = true /\
  (exists pre, "s1.jsonl" = pre +:+ ".jsonl") /\
  ~ (exists pre post, "s1.jsonl" = pre +:+ ".deleted." +:+ post).
Proof.
  split; [reflexivity|].
  exact (proj1 (active_session_iff "s1.jsonl") eq_refl).
Defined.

Lemma session_id_of_selected_file_witness :
  active_session "a.b.jsonl" = true /\ "a.b.jsonl" <> ".jsonl" /\
  "a.b.jsonl" = stem "a.b.jsonl" +:+ ".jsonl".
Proof.
  assert (Hne : "a.b.jsonl" <> ".jsonl") by discriminate.
  split; [reflexivity|]. split; [exact Hne|].
  exact (proj1 session_id_of_selected_file "a.b.jsonl" eq_refl Hne).
Defined.

Lemma event_files_after_pass_witness :
  exists text_content,
    extract_text sample_repr
      (PList [text_part "a"; PDict [("type", PStr "other")]; text_part "b"])
    = Ok text_content /\
    tree_files
      (replay empty_tree
         (migrate_conversations sample_loads sample_repr
            (sample_sources None (Some sample_listing) None)).1)
      !! event_file (stem "s1.jsonl") 3
    = Some (PDict [
        ("type", PStr "conversation");
        ("role", PStr "user");
        ("content", PStr text_content);
        ("timestamp", dict_get
           [("type", PStr "message");
            ("message", PDict [("role", PStr "user");
                               ("content", PList [text_part "a";
                                                  PDict [("type", PStr "other")];
                                                  text_part "b"])])]
           "timestamp" (PStr "unknown"));
        ("session", PStr (stem "s1.jsonl"));
        ("message_index", PInt (Z.of_nat 3));
        ("migrated_from", PStr "openclaw")]).
Proof.
  apply (event_files_after_pass sample_loads sample_repr
           (sample_sources None (Some sample_listing) None) sample_listing 2%nat
           "s1.jsonl" sample_lines 3%nat line_a_b
           [("type", PStr "message");
            ("message", PDict [("role", PStr "user");
                               ("content", PList [text_part "a";
                                                  PDict [("type", PStr "other")];
                                                  text_part "b"])])]
           [("role", PStr "user");
            ("content", PList [text_part "a"; PDict [("type", PStr "other")];
                               text_part "b"])]).
  - reflexivity.
  - apply NoDup_cons. split; [|apply NoDup_nil; exact I].
    intros Hin. inversion Hin.
  - reflexivity.
  - left. reflexivity.
  - reflexivity.
  - reflexivity.
  - reflexivity.
  - reflexivity.
  - reflexivity.
  - reflexivity.
  - reflexivity.
Defined.

Lemma summary_after_success_witness :
  exit_status (main sample_loads sample_repr (sample_sources None None None)) = 0%Z /\
  In (Stdout "   ⚠️  No config found")
     (main sample_loads sample_repr (sample_sources None None None)).1 /\
  In (Stdout "✅ Extracted personality config")
     (main sample_loads sample_repr (sample_sources None None None)).1.
Proof.
  assert (Hexit : exit_status (main sample_loads sample_repr
                                 (sample_sources None None None)) = 0%Z)
    by reflexivity.
  split; [exact Hexit|].
  destruct (summary_after_success sample_loads sample_repr
              (sample_sources None None None) Hexit)
    as [(chunks & messages & _ & _ & _ & _ & Hreport) Hmissing].
  split; [exact (proj1 (Hmissing eq_refl)) | exact Hreport].
Defined.



Lemma lines_after_a_raising_line_are_skipped_witness :
  dumps (for_each (migrate_line sample_loads sample_repr "s1")
           (enumerate ([line_a_b] ++ line_string_message :: [line_a_b])) 0%nat).1
  = [(event_file "s1" 0,
      conversation_event (PStr "user") "a b" (PStr "unknown") "s1" 0)] /\
  is_ok (for_each (migrate_line sample_loads sample_repr "s1")
           (enumerate ([line_a_b] ++ line_string_message :: [line_a_b])) 0%nat).2
  = false.
Proof.
  destruct (lines_after_a_raising_line_are_skipped sample_loads sample_repr
              "s1" 0%nat [line_a_b] line_string_message [line_a_b]
              (message_of (PStr "role content")) 1%nat eq_refl)
    as [Htrace Hraise].
  - split; [reflexivity|]. eexists. split; [reflexivity|]. split; reflexivity.
  - reflexivity.
  - split; [|exact Hraise]. rewrite Htrace. reflexivity.
Defined.



Lemma run_footprint_witness :
  graph_dir ∈ tree_dirs
    (run_tool sample_loads sample_repr
       (sample_sources (Some sample_rows) (Some sample_listing) (Some "{}"))
       empty_tree).
Proof.
  exact (proj2 (proj2 (proj1 (run_footprint sample_loads sample_repr
           (sample_sources (Some sample_rows) (Some sample_listing) (Some "{}"))
           empty_tree)))).
Defined.

